(** * Korea FSS Finlife client: a shallow embedding and its properties

    The development follows the two source files of the repository:

    - [src/services/KoreaFssFinlifeService.ts]: the error class, the two
      enumerations, the record types of the payload and the service class
      with its response interceptor and [getFinancialCompanies];
    - the example driver ([main]), which groups the option list by company
      code with lodash's [keyBy] and joins it to the base list.

    JavaScript values are a small inductive type, exceptions are an explicit
    completion (normal or throw), the axios instance is a record holding its
    defaults and its response interceptors, and the network is explicit
    state: a responder plus the log of the requests sent so far. *)

From stdpp Require Import gmap strings list fin_maps.

#[local] Open Scope string_scope.
#[local] Open Scope Z_scope.
#[local] Open Scope list_scope.

(* ===================================================================== *)
(** * JavaScript values and completions *)
(* ===================================================================== *)

(** The values a parsed response body or a query parameter can hold.  A
    number is carried as an integer: the client performs no arithmetic,
    and the numbers it handles are page numbers and counts.  An object is
    the list of its properties in insertion order; the first binding of a
    name is the property's value. *)
#[warnings="-register-all"]
Inductive value : Type :=
| VUndefined
| VNull
| VBool (b : bool)
| VNum (n : Z)
| VStr (s : string)
| VArr (elems : list value)
| VObj (props : list (string * value)).

(** What this program can throw.  [TypeError] is the engine's own error on
    reading a property of [undefined] or [null]; the second constructor is
    the class declared at the top of the service file, whose constructor
    stores its three arguments ([code], [message], [requestParams]);
    [AxiosError] is the transport's rejection. *)
Inductive thrown : Type :=
| TypeError (base : value) (property : string)
| KoreaFssFinlifeServiceError
    (code : value) (message : value) (requestParams : gmap string value)
| AxiosError (reason : string).

(** The outcome of evaluating an expression, and of an awaited promise:
    fulfilled with a value or rejected with what was thrown. *)
Inductive completion (A : Type) : Type :=
| Normal (a : A)
| Throw (e : thrown).
Arguments Normal {A} a.
Arguments Throw {A} e.

(** Sequencing: the stdpp notation [x ← c; k] runs [k] on a normal
    completion and propagates a throw. *)
#[global] Instance completion_ret : MRet completion := λ A a, Normal a.
#[global] Instance completion_bind : MBind completion := λ A B k c,
  match c with
  | Normal a => k a
  | Throw e => Throw e
  end.

Module Js.

(** [v == null] *)
Definition nullish (v : value) : bool :=
  match v with
  | VUndefined | VNull => true
  | _ => false
  end.

(** Own property of an object literal or a parsed JSON object. *)
Fixpoint own (props : list (string * value)) (k : string) : option value :=
  match props with
  | [] => None
  | (k', v) :: rest => if String.eqb k' k then Some v else own rest k
  end.

(** [v.k]: a [TypeError] on [undefined] and [null], the property of an
    object, and [undefined] where there is none.  The names this client
    reads ([result], [err_cd], [err_msg]) are no member of an array or of
    a primitive's wrapper, so those read as [undefined]. *)
Definition get (v : value) (k : string) : completion value :=
  match v with
  | VUndefined | VNull => Throw (TypeError v k)
  | VObj props => Normal (default VUndefined (own props k))
  | _ => Normal VUndefined
  end.

(** [a?.k1?.k2]: a nullish [a] short-circuits the whole chain to
    [undefined]; otherwise [a.k1] is read, and [?.k2] reads it unless it
    is nullish.  The chain never throws. *)
Definition opt_chain2 (a : value) (k1 k2 : string) : value :=
  if nullish a then VUndefined
  else match get a k1 with
       | Normal x =>
           if nullish x then VUndefined
           else match get x k2 with
                | Normal y => y
                | Throw _ => VUndefined
                end
       | Throw _ => VUndefined
       end.

(** [v === s] for a string literal [s]: no conversion, so only the same
    string is equal. *)
Definition strict_eq_str (v : value) (s : string) : bool :=
  match v with
  | VStr s' => String.eqb s' s
  | _ => false
  end.

(** [process.env.NAME]: the variable's string, or [undefined]. *)
Definition env_get (env : gmap string string) (name : string) : value :=
  match env !! name with
  | Some s => VStr s
  | None => VUndefined
  end.

End Js.

(* ===================================================================== *)
(** * The axios instance *)
(* ===================================================================== *)

(** The part of axios the service relies on: an instance created with
    default [baseURL] and [params], response interceptors registered on
    it, and [get], which merges the call's [params] over the defaults,
    sends the request and passes the response through the interceptors.
    Query parameters are a map from names to values; every value this
    client binds is a string, a number or [undefined]. *)
Module Axios.

Record AxiosRequestConfig := {
  baseURL : string;
  url : string;
  method : string;
  params : gmap string value;
}.

Record AxiosResponse := {
  data : value;
  status : Z;
  config : AxiosRequestConfig;
}.

Record AxiosInstance := {
  defaults_baseURL : string;
  defaults_params : gmap string value;
  response_interceptors : list (AxiosResponse → completion AxiosResponse);
}.

(** What comes back for a request: an HTTP reply with its status and
    parsed body, or a transport failure. *)
Inductive reply :=
| Replied (status : Z) (body : value)
| Failed (reason : string).

(** The network as seen by the client: how the other side answers, given
    the requests seen before, and the log of requests sent. *)
Record network := {
  respond : list AxiosRequestConfig → AxiosRequestConfig → reply;
  sent : list AxiosRequestConfig;
}.

(** [axios.create({ baseURL, params })] *)
Definition create (base : string) (ps : gmap string value) : AxiosInstance :=
  {| defaults_baseURL := base;
     defaults_params := ps;
     response_interceptors := [] |}.

(** [instance.interceptors.response.use(onFulfilled)] *)
Definition use_response (inst : AxiosInstance)
    (onFulfilled : AxiosResponse → completion AxiosResponse) : AxiosInstance :=
  {| defaults_baseURL := defaults_baseURL inst;
     defaults_params := defaults_params inst;
     response_interceptors := response_interceptors inst ++ [onFulfilled] |}.

(** Merging a call's configuration over the instance defaults: a name
    bound by the call wins, the other defaults are kept. *)
Definition mergeConfig (inst : AxiosInstance) (path : string)
    (ps : gmap string value) : AxiosRequestConfig :=
  {| baseURL := defaults_baseURL inst;
     url := path;
     method := "get";
     params := ps ∪ defaults_params inst |}.

(** The parameters that reach the query string: a name bound to
    [undefined] or [null] is skipped. *)
Definition serialized_params (ps : gmap string value) : gmap string value :=
  filter (λ kv, Js.nullish kv.2 = false) ps.

(** The default [validateStatus]: 2xx fulfils, anything else rejects. *)
Definition settle (cfg : AxiosRequestConfig) (r : reply) : completion AxiosResponse :=
  match r with
  | Replied st body =>
      if bool_decide (200 ≤ st < 300)
      then Normal {| data := body; status := st; config := cfg |}
      else Throw (AxiosError "Request failed with status code")
  | Failed reason => Throw (AxiosError reason)
  end.

(** The fulfilled handlers run in registration order; a rejection skips
    the handlers after it (none of them has a rejection handler). *)
Definition run_interceptors
    (hs : list (AxiosResponse → completion AxiosResponse))
    (c : completion AxiosResponse) : completion AxiosResponse :=
  foldl (λ acc h, acc ≫= h) c hs.

(** [instance.get(path, { params })] *)
Definition get (inst : AxiosInstance) (path : string) (ps : gmap string value)
    (net : network) : completion AxiosResponse * network :=
  let cfg := mergeConfig inst path ps in
  let r := respond net (sent net) cfg in
  (run_interceptors (response_interceptors inst) (settle cfg r),
   {| respond := respond net; sent := sent net ++ [cfg] |}).

End Axios.

Import Axios.

(* ===================================================================== *)
(** * The service: enumerations, payload records, client *)
(* ===================================================================== *)

(** [enum FinancialGroupCode] and the wire string of each member. *)
Inductive FinancialGroupCode : Type :=
| 은행 | 여신전문 | 저축은행 | 보험 | 금융투자.

Definition FinancialGroupCode_value (g : FinancialGroupCode) : string :=
  match g with
  | 은행 => "020000"
  | 여신전문 => "030200"
  | 저축은행 => "030300"
  | 보험 => "050000"
  | 금융투자 => "060000"
  end.

(** [enum ApiResponseCode] and the wire string of each member. *)
Inductive ApiResponseCode : Type :=
| SUCCESS
| INVALID_AUTH_KEY
| SUSPENDED_AUTH_KEY
| DELETED_AUTH_KEY
| SAMPLE_AUTH_KEY
| EXCEEDED_DAILY_SEARCH_LIMIT
| INVALID_IP
| MISSING_REQUEST_PARAMETER
| INVALID_REQUEST_PARAMETER
| SYSTEM_ERROR.

Definition ApiResponseCode_value (c : ApiResponseCode) : string :=
  match c with
  | SUCCESS => "000"
  | INVALID_AUTH_KEY => "010"
  | SUSPENDED_AUTH_KEY => "011"
  | DELETED_AUTH_KEY => "012"
  | SAMPLE_AUTH_KEY => "013"
  | EXCEEDED_DAILY_SEARCH_LIMIT => "020"
  | INVALID_IP => "021"
  | MISSING_REQUEST_PARAMETER => "100"
  | INVALID_REQUEST_PARAMETER => "101"
  | SYSTEM_ERROR => "900"
  end.

(** The members in declaration order. *)
Definition ApiResponseCode_members : list ApiResponseCode :=
  [ SUCCESS; INVALID_AUTH_KEY; SUSPENDED_AUTH_KEY; DELETED_AUTH_KEY;
    SAMPLE_AUTH_KEY; EXCEEDED_DAILY_SEARCH_LIMIT; INVALID_IP;
    MISSING_REQUEST_PARAMETER; INVALID_REQUEST_PARAMETER; SYSTEM_ERROR ].

(** [interface FinancialCompany] *)
Module FinancialCompany.
Record t := {
  dcls_month : string;
  fin_co_no : string;
  kor_co_nm : string;
  dcls_chrg_man : string;
  homp_url : string;
  cal_tel : string;
}.
End FinancialCompany.

(** [interface FinancialCompanyOptions] *)
Module FinancialCompanyOptions.
Record t := {
  dcls_month : string;
  fin_co_no : string;
  area_cd : string;
  area_nm : string;
  exis_yn : string;
}.
End FinancialCompanyOptions.

(** The response interceptor registered by the constructor:
<<
    if (response.data?.result?.err_cd !== ApiResponseCode.SUCCESS) {
      throw new KoreaFssFinlifeServiceError(
        response.data.result.err_cd,
        response.data.result.err_msg,
        response.config.params);
    }
    return response;
>>
    The arguments of [new] are evaluated left to right with plain property
    reads, each of which can throw. *)
Definition response_interceptor (response : AxiosResponse) : completion AxiosResponse :=
  if negb (Js.strict_eq_str
             (Js.opt_chain2 (data response) "result" "err_cd")
             (ApiResponseCode_value SUCCESS))
  then
    r1 ← Js.get (data response) "result";
    code ← Js.get r1 "err_cd";
    r2 ← Js.get (data response) "result";
    message ← Js.get r2 "err_msg";
    Throw (KoreaFssFinlifeServiceError code message (params (config response)))
  else Normal response.

Record KoreaFssFinlifeService := { api : AxiosInstance }.

(** [new KoreaFssFinlifeService()]: the instance is created with the
    authentication key read from [process.env] at this point, and the
    interceptor is registered on it. *)
Definition new_KoreaFssFinlifeService (env : gmap string string) : KoreaFssFinlifeService :=
  {| api :=
       Axios.use_response
         (Axios.create "https://finlife.fss.or.kr/finlifeapi"
            {[ "auth" := Js.env_get env "FSS_OPEN_API_KEY" ]})
         response_interceptor |}.

(** The argument object of [getFinancialCompanies]: [groupCode] is
    required, the other two properties may be left out ([None]). *)
Record CompaniesQuery := {
  groupCode : FinancialGroupCode;
  financeCode : option string;
  pageNo : option Z;
}.

(** The [params] object literal of the call; the destructuring default
    [pageNo = 1] applies when the property is missing. *)
Definition request_params (q : CompaniesQuery) : gmap string value :=
  {[ "topFinGrpNo" := VStr (FinancialGroupCode_value (groupCode q));
     "financeCd" := from_option VStr VUndefined (financeCode q);
     "pageNo" := VNum (default 1 (pageNo q)) ]}.

(** [getFinancialCompanies]: one GET on the instance, then
    [.then((res) => res.data.result)]. *)
Definition getFinancialCompanies (svc : KoreaFssFinlifeService)
    (q : CompaniesQuery) (net : network) : completion value * network :=
  let '(res, net') :=
    Axios.get (api svc) "/companySearch.json" (request_params q) net in
  (r ← res; Js.get (data r) "result", net').

(* ===================================================================== *)
(** * The process: environment, client and calls over time *)
(* ===================================================================== *)

(** The state around a running client: the process environment, which
    anything may change at any time, and the network. *)
Record world := {
  env : gmap string string;
  net : network;
}.

(** What happens after the client was constructed: the environment is
    changed, or the operation is called. *)
Inductive event :=
| SetEnv (name val : string)
| UnsetEnv (name : string)
| Call (q : CompaniesQuery).

Definition step (svc : KoreaFssFinlifeService) (w : world) (e : event) : world :=
  match e with
  | SetEnv name val => {| env := <[name := val]> (env w); net := net w |}
  | UnsetEnv name => {| env := delete name (env w); net := net w |}
  | Call q => {| env := env w; net := (getFinancialCompanies svc q (net w)).2 |}
  end.

(** Construct the client in [w], then let the events happen in order. *)
Definition session (w : world) (es : list event) : world :=
  foldl (step (new_KoreaFssFinlifeService (env w))) w es.

(* ===================================================================== *)
(** * The join of the example driver *)
(* ===================================================================== *)

Module Lodash.

(** [keyBy(collection, iteratee)]: starting from the empty object, each
    element in order is assigned under its key.  The map holds the own
    properties of the resulting plain object. *)
Definition keyBy {A} (collection : list A) (iteratee : A → string) : gmap string A :=
  foldl (λ result v, <[iteratee v := v]> result) ∅ collection.

End Lodash.

(** Reading [object[k]] on a plain object such as the one [keyBy]
    returns.  The read walks the prototype chain: an own property wins,
    then come the members every plain object inherits from
    [Object.prototype], and only a name found in neither reads as
    [undefined]. *)
Module PlainObject.

(** The property names of [Object.prototype]. *)
Definition Object_prototype_names : list string :=
  [ "constructor"; "__defineGetter__"; "__defineSetter__"; "hasOwnProperty";
    "__lookupGetter__"; "__lookupSetter__"; "isPrototypeOf";
    "propertyIsEnumerable"; "toString"; "valueOf"; "__proto__";
    "toLocaleString" ].

(** What a read gives: the own value, the member of [Object.prototype]
    with that name (a built-in function, or the prototype itself for
    [__proto__]), or [undefined]. *)
Inductive member (A : Type) : Type :=
| Own (a : A)
| Inherited (name : string)
| Undefined.
Arguments Own {A} a.
Arguments Inherited {A} name.
Arguments Undefined {A}.

Definition read {A} (object : gmap string A) (k : string) : member A :=
  match object !! k with
  | Some a => Own a
  | None =>
      if bool_decide (k ∈ Object_prototype_names) then Inherited k
      else Undefined
  end.

End PlainObject.

(** An element of [bankList]: the spread of the base record, then
    [options], which holds whatever the read of the grouping gave. *)
Module Bank.
Record t := {
  dcls_month : string;
  fin_co_no : string;
  kor_co_nm : string;
  dcls_chrg_man : string;
  homp_url : string;
  cal_tel : string;
  options : PlainObject.member FinancialCompanyOptions.t;
}.

(** The base fields of a merged entry. *)
Definition base (b : t) : FinancialCompany.t :=
  {| FinancialCompany.dcls_month := dcls_month b;
     FinancialCompany.fin_co_no := fin_co_no b;
     FinancialCompany.kor_co_nm := kor_co_nm b;
     FinancialCompany.dcls_chrg_man := dcls_chrg_man b;
     FinancialCompany.homp_url := homp_url b;
     FinancialCompany.cal_tel := cal_tel b |}.
End Bank.

(** The two statements of [main] after the call:
<<
    const optionsByCompanyCode = keyBy(optionList, "fin_co_no");
    const bankList = baseList.map((bank) => ({
      ...bank, options: optionsByCompanyCode[bank.fin_co_no] }));
>>
    The index expression is a plain property read on the object that
    [keyBy] returned. *)
Definition bankList (baseList : list FinancialCompany.t)
    (optionList : list FinancialCompanyOptions.t) : list Bank.t :=
  let optionsByCompanyCode := Lodash.keyBy optionList FinancialCompanyOptions.fin_co_no in
  (λ bank,
         {| Bank.dcls_month := FinancialCompany.dcls_month bank;
            Bank.fin_co_no := FinancialCompany.fin_co_no bank;
            Bank.kor_co_nm := FinancialCompany.kor_co_nm bank;
            Bank.dcls_chrg_man := FinancialCompany.dcls_chrg_man bank;
            Bank.homp_url := FinancialCompany.homp_url bank;
            Bank.cal_tel := FinancialCompany.cal_tel bank;
            Bank.options :=
              PlainObject.read optionsByCompanyCode
                (FinancialCompany.fin_co_no bank) |})
    <$> baseList.

(** The request configuration a call hands to the transport: the call's
    [params] merged over the instance defaults. *)
Definition outgoing_request (svc : KoreaFssFinlifeService) (q : CompaniesQuery)
    : AxiosRequestConfig :=
  Axios.mergeConfig (api svc) "/companySearch.json" (request_params q).

(** The queries of the calls among the events, in order. *)
Definition calls (es : list event) : list CompaniesQuery :=
  omap (λ e, match e with Call q => Some q | _ => None end) es.

(* ===================================================================== *)
(** * Sample data *)
(* ===================================================================== *)

(** Concrete inputs on which the statements below are exercised. *)
Module Sample.

Definition process_env : gmap string string :=
  {[ "FSS_OPEN_API_KEY" := "sample-key" ]}.

Definition bank_page_1 : CompaniesQuery :=
  {| groupCode := 은행; financeCode := None; pageNo := None |}.

Definition bank_page_3 : CompaniesQuery :=
  {| groupCode := 은행; financeCode := Some "0010001"; pageNo := Some 3 |}.

(** A network that answers every request with the same status and body. *)
Definition answering (st : Z) (body : value) : network :=
  {| respond := λ _ _, Replied st body; sent := [] |}.

(** A rejection shaped as [interface ApiResponse] declares the envelope:
    the message is under [err_message]. *)
Definition invalid_key_declared : value :=
  VObj [("result",
         VObj [("err_cd", VStr "010");
               ("err_message", VStr "unregistered authentication key")])].

(** Two rejections with the message under [err_msg], the name the
    interceptor reads. *)
Definition invalid_key : value :=
  VObj [("result",
         VObj [("err_cd", VStr "010");
               ("err_msg", VStr "unregistered authentication key")])].

Definition system_error : value :=
  VObj [("result",
         VObj [("err_cd", VStr "900"); ("err_msg", VStr "system error")])].

Definition base_A : value :=
  VObj [("dcls_month", VStr "202401"); ("fin_co_no", VStr "0010001");
        ("kor_co_nm", VStr "A")].

Definition option_A : value :=
  VObj [("dcls_month", VStr "202401"); ("fin_co_no", VStr "0010001");
        ("area_cd", VStr "A")].

Definition success_result : value :=
  VObj [("err_cd", VStr "000"); ("err_msg", VStr "ok");
        ("total_count", VNum 1); ("max_page_no", VNum 1);
        ("now_page_no", VNum 1);
        ("baseList", VArr [base_A]); ("optionList", VArr [option_A])].

Definition success : value := VObj [("result", success_result)].

(** The response object axios builds for a 200 reply to the first-page
    bank query. *)
Definition response_of (body : value) : AxiosResponse :=
  {| data := body; status := 200;
     config := outgoing_request (new_KoreaFssFinlifeService process_env)
                 bank_page_1 |}.

Definition company (code name : string) : FinancialCompany.t :=
  {| FinancialCompany.dcls_month := "202401";
     FinancialCompany.fin_co_no := code;
     FinancialCompany.kor_co_nm := name;
     FinancialCompany.dcls_chrg_man := "";
     FinancialCompany.homp_url := "";
     FinancialCompany.cal_tel := "" |}.

Definition branch (code area : string) : FinancialCompanyOptions.t :=
  {| FinancialCompanyOptions.dcls_month := "202401";
     FinancialCompanyOptions.fin_co_no := code;
     FinancialCompanyOptions.area_cd := area;
     FinancialCompanyOptions.area_nm := area;
     FinancialCompanyOptions.exis_yn := "Y" |}.

End Sample.

(** The members of [enum FinancialGroupCode] in declaration order. *)
Definition FinancialGroupCode_members : list FinancialGroupCode :=
  [ 은행; 여신전문; 저축은행; 보험; 금융투자 ].

(** The names the client ever binds in a query: [auth] on the instance,
    the other three in [getFinancialCompanies]. *)
Definition query_names : gset string :=
  {[ "auth"; "topFinGrpNo"; "financeCd"; "pageNo" ]}.

(* ===================================================================== *)
(** * Property reads and the interceptor *)
(* ===================================================================== *)

Section PropertyReads.

Lemma get_Normal_not_nullish v k x :
  Js.get v k = Normal x → Js.nullish v = false.
Proof. by destruct v. Qed.

Lemma get_nullish v k :
  Js.nullish v = true → Js.get v k = Throw (TypeError v k).
Proof. by destruct v. Qed.

(** On an object that has a non-nullish [k1], the optional chain reads
    what the plain chain reads. *)
Lemma opt_chain2_get a k1 k2 x y :
  Js.get a k1 = Normal x → Js.get x k2 = Normal y →
  Js.opt_chain2 a k1 k2 = y.
Proof.
  intros Ha Hx. unfold Js.opt_chain2.
  rewrite (get_Normal_not_nullish _ _ _ Ha), Ha.
  by rewrite (get_Normal_not_nullish _ _ _ Hx), Hx.
Qed.

(** Where the chain ends in a string, both plain reads succeed and the
    second gives that string. *)
Lemma opt_chain2_str a k1 k2 s :
  Js.opt_chain2 a k1 k2 = VStr s →
  ∃ x, Js.get a k1 = Normal x ∧ Js.get x k2 = Normal (VStr s).
Proof.
  unfold Js.opt_chain2.
  destruct (Js.nullish a); [done|].
  destruct (Js.get a k1) as [x|]; [|done].
  destruct (Js.nullish x); [done|].
  destruct (Js.get x k2) as [y|] eqn:Hy; [|done].
  intros ->. by exists x.
Qed.

Lemma opt_chain2_nullish_base a k1 k2 :
  Js.nullish a = true → Js.opt_chain2 a k1 k2 = VUndefined.
Proof. unfold Js.opt_chain2. by intros ->. Qed.

Lemma opt_chain2_nullish_mid a k1 k2 x :
  Js.get a k1 = Normal x → Js.nullish x = true →
  Js.opt_chain2 a k1 k2 = VUndefined.
Proof.
  intros Ha Hx. unfold Js.opt_chain2.
  by rewrite (get_Normal_not_nullish _ _ _ Ha), Ha, Hx.
Qed.

Lemma strict_eq_str_true v s : Js.strict_eq_str v s = true ↔ v = VStr s.
Proof.
  destruct v; simpl; try (split; [done | by intros [=]]).
  rewrite String.eqb_eq. split; [by intros -> | by intros [= ->]].
Qed.

Lemma strict_eq_str_false v s : Js.strict_eq_str v s = false ↔ v ≠ VStr s.
Proof.
  rewrite <- strict_eq_str_true. by destruct (Js.strict_eq_str v s).
Qed.

End PropertyReads.

Section Interceptor.

Implicit Types response : AxiosResponse.

(** The guard passes exactly the responses whose optional chain reads
    the success code. *)
Lemma interceptor_pass response :
  Js.opt_chain2 (data response) "result" "err_cd" = VStr "000" →
  response_interceptor response = Normal response.
Proof.
  intros H. unfold response_interceptor. rewrite H. done.
Qed.

(** An envelope with a status other than the success code is turned
    into the typed error, built from [err_cd], [err_msg] and the
    parameters of the request. *)
Lemma interceptor_reject response result code message :
  Js.get (data response) "result" = Normal result →
  Js.get result "err_cd" = Normal code →
  Js.get result "err_msg" = Normal message →
  code ≠ VStr "000" →
  response_interceptor response
  = Throw (KoreaFssFinlifeServiceError code message (params (config response))).
Proof.
  intros Hres Hcode Hmsg Hne. unfold response_interceptor.
  rewrite (opt_chain2_get _ _ _ _ _ Hres Hcode).
  apply strict_eq_str_false in Hne. simpl ApiResponseCode_value. rewrite Hne.
  simpl negb. cbv iota.
  rewrite Hres. simpl. rewrite Hcode. simpl. by rewrite Hmsg.
Qed.

(** Both reads of an object succeed, so on an envelope the error message
    read never throws. *)
Lemma get_obj_total props k : ∃ x, Js.get (VObj props) k = Normal x.
Proof. eexists. reflexivity. Qed.

End Interceptor.

(* ===================================================================== *)
(** * One call on a freshly constructed client *)
(* ===================================================================== *)

Section OneCall.

Variable process_env : gmap string string.
#[local] Abbreviation svc := (new_KoreaFssFinlifeService process_env).

(** The call sends exactly one request, the merged configuration, and
    its promise is the transport's outcome passed through the
    interceptor and the final [.then]. *)
Lemma getFinancialCompanies_eq q nw :
  getFinancialCompanies svc q nw
  = (r ← (Axios.settle (outgoing_request svc q)
            (respond nw (sent nw) (outgoing_request svc q))
          ≫= response_interceptor);
     Js.get (data r) "result",
     {| respond := respond nw;
        sent := sent nw ++ [outgoing_request svc q] |}).
Proof. reflexivity. Qed.

Lemma settle_2xx cfg st body :
  200 ≤ st < 300 →
  Axios.settle cfg (Replied st body)
  = Normal {| data := body; status := st; config := cfg |}.
Proof. intros H. unfold Axios.settle. by rewrite bool_decide_eq_true_2. Qed.

(** A 2xx reply with a non-success envelope: the promise is rejected
    with the typed error carrying [err_cd], [err_msg] and the merged
    query parameters of the request. *)
Lemma getFinancialCompanies_rejects q nw st body result code message :
  respond nw (sent nw) (outgoing_request svc q) = Replied st body →
  200 ≤ st < 300 →
  Js.get body "result" = Normal result →
  Js.get result "err_cd" = Normal code →
  Js.get result "err_msg" = Normal message →
  code ≠ VStr "000" →
  (getFinancialCompanies svc q nw).1
  = Throw (KoreaFssFinlifeServiceError code message
             (params (outgoing_request svc q))).
Proof.
  intros Hr Hst Hres Hcode Hmsg Hne.
  rewrite getFinancialCompanies_eq, Hr, (settle_2xx _ _ _ Hst). simpl.
  by rewrite (interceptor_reject _ result code message).
Qed.

(** A 2xx reply with a success envelope: the promise is fulfilled with
    the envelope's [result]. *)
Lemma getFinancialCompanies_fulfils q nw st body :
  respond nw (sent nw) (outgoing_request svc q) = Replied st body →
  200 ≤ st < 300 →
  Js.opt_chain2 body "result" "err_cd" = VStr "000" →
  (getFinancialCompanies svc q nw).1 = Js.get body "result".
Proof.
  intros Hr Hst Hok.
  rewrite getFinancialCompanies_eq, Hr, (settle_2xx _ _ _ Hst). simpl.
  by rewrite interceptor_pass.
Qed.

End OneCall.

(* ===================================================================== *)
(** * Error path *)
(* ===================================================================== *)

Section ErrorPath.

Variable process_env : gmap string string.
#[local] Abbreviation svc := (new_KoreaFssFinlifeService process_env).

(** C1, evaluated on a rejection shaped as the declared envelope type:
    the server's message sits under [err_message], the interceptor reads
    [err_msg], and the typed error carries the code ["010"] and the
    request's parameters but [undefined] in place of the message. *)
Theorem declared_envelope_loses_message :
  let svc := new_KoreaFssFinlifeService Sample.process_env in
  let result := VObj [("err_cd", VStr "010");
                      ("err_message", VStr "unregistered authentication key")] in
  Js.get Sample.invalid_key_declared "result" = Normal result
  ∧ Js.get result "err_message" = Normal (VStr "unregistered authentication key")
  ∧ (getFinancialCompanies svc Sample.bank_page_1
       (Sample.answering 200 Sample.invalid_key_declared)).1
    = Throw (KoreaFssFinlifeServiceError (VStr "010") VUndefined
               (params (outgoing_request svc Sample.bank_page_1))).
Proof. repeat split. Qed.

(** C6: two replies with non-success envelopes, whatever their codes and
    messages, to the same call: both promises are rejected with the same
    typed error, built the same way from each envelope's own code and
    message and from the same request parameters, and the same single
    request is logged.  The code is never inspected beyond its
    difference from the success code. *)
Theorem non_success_codes_fail_uniformly
    q nw1 nw2 st1 st2 body1 body2 result1 result2 code1 code2 msg1 msg2 :
  sent nw1 = sent nw2 →
  respond nw1 (sent nw1) (outgoing_request svc q) = Replied st1 body1 →
  respond nw2 (sent nw2) (outgoing_request svc q) = Replied st2 body2 →
  200 ≤ st1 < 300 → 200 ≤ st2 < 300 →
  Js.get body1 "result" = Normal result1 →
  Js.get body2 "result" = Normal result2 →
  Js.get result1 "err_cd" = Normal code1 →
  Js.get result2 "err_cd" = Normal code2 →
  Js.get result1 "err_msg" = Normal msg1 →
  Js.get result2 "err_msg" = Normal msg2 →
  code1 ≠ VStr "000" → code2 ≠ VStr "000" →
  (getFinancialCompanies svc q nw1).1
  = Throw (KoreaFssFinlifeServiceError code1 msg1
             (params (outgoing_request svc q)))
  ∧ (getFinancialCompanies svc q nw2).1
    = Throw (KoreaFssFinlifeServiceError code2 msg2
               (params (outgoing_request svc q)))
  ∧ sent (getFinancialCompanies svc q nw1).2
    = sent (getFinancialCompanies svc q nw2).2.
Proof.
  intros Hsent Hr1 Hr2 Hst1 Hst2 Hres1 Hres2 Hc1 Hc2 Hm1 Hm2 Hne1 Hne2.
  split; [|split].
  - by apply (getFinancialCompanies_rejects _ _ _ st1 body1 result1).
  - by apply (getFinancialCompanies_rejects _ _ _ st2 body2 result2).
  - rewrite !getFinancialCompanies_eq. simpl. by rewrite Hsent.
Qed.

(** C9: a body without a [result] object.  The optional chain makes the
    guard read [undefined], which differs from the success code, and
    the first plain read in the arguments of [new] throws: a
    [TypeError], on [response.data] when the body is nullish and on
    [response.data.result] when [result] is.  No typed error is ever
    constructed for such a response. *)
Theorem interceptor_type_error_without_result response :
  (Js.nullish (data response) = true →
   response_interceptor response = Throw (TypeError (data response) "result"))
  ∧ (∀ result,
       Js.get (data response) "result" = Normal result →
       Js.nullish result = true →
       response_interceptor response = Throw (TypeError result "err_cd"))
  ∧ ((Js.nullish (data response) = true
      ∨ ∃ result, Js.get (data response) "result" = Normal result
                  ∧ Js.nullish result = true) →
     ∀ code message ps,
       response_interceptor response
       ≠ Throw (KoreaFssFinlifeServiceError code message ps)).
Proof.
  assert (H1 : Js.nullish (data response) = true →
    response_interceptor response = Throw (TypeError (data response) "result")).
  { intros Hn. unfold response_interceptor.
    rewrite (opt_chain2_nullish_base _ _ _ Hn). simpl.
    rewrite (get_nullish _ "result" Hn). reflexivity. }
  assert (H2 : ∀ result, Js.get (data response) "result" = Normal result →
    Js.nullish result = true →
    response_interceptor response = Throw (TypeError result "err_cd")).
  { intros result Hres Hn. unfold response_interceptor.
    rewrite (opt_chain2_nullish_mid _ _ _ _ Hres Hn). simpl.
    rewrite Hres. simpl. rewrite (get_nullish _ "err_cd" Hn). reflexivity. }
  split; [exact H1|]. split; [exact H2|].
  intros [Hn | (result & Hres & Hn)] code message ps.
  - by rewrite (H1 Hn).
  - by rewrite (H2 result Hres Hn).
Qed.

End ErrorPath.

(** With the key in the environment, the same call answered once with
    ["010"] and once with ["900"] fails the same way. *)
Lemma non_success_codes_fail_uniformly_witness :
  (getFinancialCompanies (new_KoreaFssFinlifeService Sample.process_env)
     Sample.bank_page_1 (Sample.answering 200 Sample.invalid_key)).1
  = Throw (KoreaFssFinlifeServiceError
             (VStr "010") (VStr "unregistered authentication key")
             (params (outgoing_request
                        (new_KoreaFssFinlifeService Sample.process_env)
                        Sample.bank_page_1)))
  ∧ (getFinancialCompanies (new_KoreaFssFinlifeService Sample.process_env)
       Sample.bank_page_1 (Sample.answering 200 Sample.system_error)).1
    = Throw (KoreaFssFinlifeServiceError
               (VStr "900") (VStr "system error")
               (params (outgoing_request
                          (new_KoreaFssFinlifeService Sample.process_env)
                          Sample.bank_page_1)))
  ∧ sent (getFinancialCompanies (new_KoreaFssFinlifeService Sample.process_env)
            Sample.bank_page_1 (Sample.answering 200 Sample.invalid_key)).2
    = sent (getFinancialCompanies (new_KoreaFssFinlifeService Sample.process_env)
              Sample.bank_page_1 (Sample.answering 200 Sample.system_error)).2.
Proof.
  apply (non_success_codes_fail_uniformly Sample.process_env Sample.bank_page_1
           (Sample.answering 200 Sample.invalid_key)
           (Sample.answering 200 Sample.system_error)
           200 200 Sample.invalid_key Sample.system_error
           (VObj [("err_cd", VStr "010");
                  ("err_msg", VStr "unregistered authentication key")])
           (VObj [("err_cd", VStr "900"); ("err_msg", VStr "system error")]));
    try reflexivity; try lia; discriminate.
Defined.

(** An empty body ([undefined]) and a body without [result] both end in a
    [TypeError]. *)
Lemma interceptor_type_error_without_result_witness :
  response_interceptor (Sample.response_of VUndefined)
  = Throw (TypeError VUndefined "result")
  ∧ response_interceptor (Sample.response_of (VObj []))
    = Throw (TypeError VUndefined "err_cd").
Proof.
  split.
  - apply (proj1 (interceptor_type_error_without_result
                    (Sample.response_of VUndefined))).
    reflexivity.
  - apply (proj1 (proj2 (interceptor_type_error_without_result
                           (Sample.response_of (VObj [])))));
      reflexivity.
Defined.

(* ===================================================================== *)
(** * Success path *)
(* ===================================================================== *)

Section SuccessPath.

Variable process_env : gmap string string.
#[local] Abbreviation svc := (new_KoreaFssFinlifeService process_env).

(** C2: a 2xx reply whose envelope carries the success code.  The
    promise is fulfilled with the envelope's [result] object itself, so
    reading [total_count], [max_page_no], [now_page_no], [baseList] or
    [optionList] from what is returned gives what the same read gives on
    the server's envelope: nothing is recomputed or reordered. *)
Theorem success_returns_result_unchanged q nw st body result :
  respond nw (sent nw) (outgoing_request svc q) = Replied st body →
  200 ≤ st < 300 →
  Js.get body "result" = Normal result →
  Js.get result "err_cd" = Normal (VStr "000") →
  (getFinancialCompanies svc q nw).1 = Normal result
  ∧ Forall (λ field,
              ((getFinancialCompanies svc q nw).1 ≫= λ r, Js.get r field)
              = Js.get result field)
      ["total_count"; "max_page_no"; "now_page_no"; "baseList"; "optionList"].
Proof.
  intros Hr Hst Hres Hcode.
  assert (Hout : (getFinancialCompanies svc q nw).1 = Normal result).
  { rewrite (getFinancialCompanies_fulfils _ _ _ st body); [done..|].
    by apply (opt_chain2_get _ _ _ result). }
  split; [exact Hout|]. rewrite Hout.
  repeat constructor.
Qed.

End SuccessPath.

(** The reply of the end-to-end example: the returned object is the
    envelope's [result], lists included. *)
Lemma success_returns_result_unchanged_witness :
  (getFinancialCompanies (new_KoreaFssFinlifeService Sample.process_env)
     Sample.bank_page_1 (Sample.answering 200 Sample.success)).1
  = Normal Sample.success_result
  ∧ Forall (λ field,
              ((getFinancialCompanies (new_KoreaFssFinlifeService Sample.process_env)
                  Sample.bank_page_1 (Sample.answering 200 Sample.success)).1
               ≫= λ r, Js.get r field)
              = Js.get Sample.success_result field)
      ["total_count"; "max_page_no"; "now_page_no"; "baseList"; "optionList"].
Proof.
  apply (success_returns_result_unchanged Sample.process_env Sample.bank_page_1
           (Sample.answering 200 Sample.success) 200 Sample.success
           Sample.success_result); try reflexivity; lia.
Defined.

(* ===================================================================== *)
(** * The outgoing request *)
(* ===================================================================== *)

Section Request.

Implicit Types (svc : KoreaFssFinlifeService) (q : CompaniesQuery)
  (nw : network).

(** A call logs exactly one request after those already sent: the
    merged configuration. *)
Lemma getFinancialCompanies_sent svc q nw :
  sent (getFinancialCompanies svc q nw).2
  = sent nw ++ [outgoing_request svc q].
Proof. reflexivity. Qed.

Lemma getFinancialCompanies_respond svc q nw :
  respond (getFinancialCompanies svc q nw).2 = respond nw.
Proof. reflexivity. Qed.

(** A name bound by the call is bound the same way in the request. *)
Lemma outgoing_call_param svc q k v :
  request_params q !! k = Some v →
  params (outgoing_request svc q) !! k = Some v.
Proof. intros H. simpl. by apply lookup_union_Some_l. Qed.

(** A name the call does not bind keeps the instance default. *)
Lemma outgoing_default_param svc q k :
  request_params q !! k = None →
  params (outgoing_request svc q) !! k = defaults_params (api svc) !! k.
Proof. intros H. simpl. by apply lookup_union_r. Qed.

Lemma request_params_topFinGrpNo q :
  request_params q !! "topFinGrpNo"
  = Some (VStr (FinancialGroupCode_value (groupCode q))).
Proof. reflexivity. Qed.

Lemma request_params_financeCd q :
  request_params q !! "financeCd"
  = Some (from_option VStr VUndefined (financeCode q)).
Proof. reflexivity. Qed.

Lemma request_params_pageNo q :
  request_params q !! "pageNo" = Some (VNum (default 1 (pageNo q))).
Proof. reflexivity. Qed.

Lemma request_params_auth q : request_params q !! "auth" = None.
Proof. reflexivity. Qed.

(** C4: with [pageNo] left out the request logged by the call binds
    [pageNo] to 1, and with [pageNo] given as [n] it binds it to [n]. *)
Theorem pageNo_default_and_passthrough svc g f nw :
  (∃ cfg,
     sent (getFinancialCompanies svc
             {| groupCode := g; financeCode := f; pageNo := None |} nw).2
     = sent nw ++ [cfg]
     ∧ params cfg !! "pageNo" = Some (VNum 1))
  ∧ ∀ n,
      ∃ cfg,
        sent (getFinancialCompanies svc
                {| groupCode := g; financeCode := f; pageNo := Some n |} nw).2
        = sent nw ++ [cfg]
        ∧ params cfg !! "pageNo" = Some (VNum n).
Proof.
  split; [|intros n]; eexists;
    (split; [apply getFinancialCompanies_sent|]);
    apply outgoing_call_param, request_params_pageNo.
Qed.

(** C10: with [financeCode] left out, [financeCd] is bound to
    [undefined] in the request and is no key of the serialized query
    (so it is not sent as an empty string either); in every call
    [topFinGrpNo] is bound to a string and [pageNo] to a number, and
    both reach the serialized query. *)
Theorem financeCd_unbound_when_omitted svc nw :
  (∀ g p,
     let q := {| groupCode := g; financeCode := None; pageNo := p |} in
     sent (getFinancialCompanies svc q nw).2
     = sent nw ++ [outgoing_request svc q]
     ∧ params (outgoing_request svc q) !! "financeCd" = Some VUndefined
     ∧ Axios.serialized_params (params (outgoing_request svc q)) !! "financeCd"
       = None)
  ∧ (∀ q,
       ∃ (grp : string) (page : Z),
         params (outgoing_request svc q) !! "topFinGrpNo" = Some (VStr grp)
         ∧ params (outgoing_request svc q) !! "pageNo" = Some (VNum page)
         ∧ Axios.serialized_params (params (outgoing_request svc q)) !! "topFinGrpNo"
           = Some (VStr grp)
         ∧ Axios.serialized_params (params (outgoing_request svc q)) !! "pageNo"
           = Some (VNum page)).
Proof.
  split.
  - intros g p q. split; [apply getFinancialCompanies_sent|].
    assert (H : params (outgoing_request svc q) !! "financeCd" = Some VUndefined)
      by apply outgoing_call_param, request_params_financeCd.
    split; [exact H|].
    unfold Axios.serialized_params. apply map_lookup_filter_None. right.
    intros x Hx. rewrite H in Hx. by injection Hx as <-.
  - intros q.
    exists (FinancialGroupCode_value (groupCode q)), (default 1 (pageNo q)).
    pose proof (outgoing_call_param svc q _ _ (request_params_topFinGrpNo q)) as Hg.
    pose proof (outgoing_call_param svc q _ _ (request_params_pageNo q)) as Hp.
    unfold Axios.serialized_params.
    repeat split; [exact Hg | exact Hp | |];
      by apply map_lookup_filter_Some_2.
Qed.

End Request.

(* ===================================================================== *)
(** * The authentication key over the life of a client *)
(* ===================================================================== *)

Section AuthKey.

(** Any GET on the instance that does not bind [auth] itself sends the
    key the instance was created with, whatever the path or the other
    parameters. *)
Lemma any_get_carries_auth process_env path ps nw :
  ps !! "auth" = None →
  ∃ cfg,
    sent (Axios.get (api (new_KoreaFssFinlifeService process_env)) path ps nw).2
    = sent nw ++ [cfg]
    ∧ params cfg !! "auth"
      = Some (Js.env_get process_env "FSS_OPEN_API_KEY").
Proof.
  intros Hps. eexists. split; [reflexivity|]. simpl.
  rewrite lookup_union_r by done. apply lookup_singleton_eq.
Qed.

Lemma outgoing_auth process_env q :
  params (outgoing_request (new_KoreaFssFinlifeService process_env) q) !! "auth"
  = Some (Js.env_get process_env "FSS_OPEN_API_KEY").
Proof.
  rewrite outgoing_default_param by apply request_params_auth.
  apply lookup_singleton_eq.
Qed.

(** In the query string the key is present exactly when the variable
    was set. *)
Lemma outgoing_auth_serialized process_env q :
  Axios.serialized_params
    (params (outgoing_request (new_KoreaFssFinlifeService process_env) q))
  !! "auth"
  = VStr <$> process_env !! "FSS_OPEN_API_KEY".
Proof.
  pose proof (outgoing_auth process_env q) as H.
  unfold Axios.serialized_params, Js.env_get in *.
  destruct (process_env !! "FSS_OPEN_API_KEY") as [key|].
  - by apply map_lookup_filter_Some_2.
  - apply map_lookup_filter_None. right. intros x Hx.
    rewrite H in Hx. by injection Hx as <-.
Qed.

(** The log after a run of events: one request per call, in order, and
    nothing for a change of the environment. *)
Lemma run_sent svc es : ∀ w,
  sent (net (foldl (step svc) w es))
  = sent (net w) ++ (outgoing_request svc <$> calls es).
Proof.
  induction es as [|e es IH]; intros w; simpl.
  - by rewrite app_nil_r.
  - rewrite IH. destruct e as [name val|name|q]; simpl; [done..|].
    by rewrite <- app_assoc.
Qed.

(** C5: construct the client, then let any events happen: changes of
    the process environment (the key included) and calls, in any number
    and order.  The network log grows by one request per call, and every
    one of them binds [auth] to what [process.env.FSS_OPEN_API_KEY] held
    when the client was constructed. *)
Theorem auth_key_on_every_request w es :
  ∃ requests,
    sent (net (session w es)) = sent (net w) ++ requests
    ∧ length requests = length (calls es)
    ∧ Forall (λ cfg, params cfg !! "auth"
                     = Some (Js.env_get (env w) "FSS_OPEN_API_KEY"))
        requests
    ∧ Forall (λ cfg, Axios.serialized_params (params cfg) !! "auth"
                     = VStr <$> env w !! "FSS_OPEN_API_KEY")
        requests.
Proof.
  exists (outgoing_request (new_KoreaFssFinlifeService (env w)) <$> calls es).
  split; [apply run_sent|]. split; [apply length_fmap|].
  split; apply Forall_fmap, Forall_forall; intros q _; simpl.
  - apply outgoing_auth.
  - apply outgoing_auth_serialized.
Qed.

End AuthKey.

(* ===================================================================== *)
(** * The status codes *)
(* ===================================================================== *)

(** C7: the enumeration has ten members, with the wire strings ["000"],
    ["010"], ["011"], ["012"], ["013"], ["020"], ["021"], ["100"], ["101"]
    and ["900"] in declaration order (success, invalid key, suspended key,
    deleted key, sample key, daily limit exceeded, invalid IP, missing
    parameter, invalid parameter, system error); the strings are pairwise
    different and every member is in the list. *)
Theorem response_code_taxonomy :
  ApiResponseCode_value <$> ApiResponseCode_members
  = ["000"; "010"; "011"; "012"; "013"; "020"; "021"; "100"; "101"; "900"]
  ∧ (∀ c : ApiResponseCode, c ∈ ApiResponseCode_members)
  ∧ NoDup (ApiResponseCode_value <$> ApiResponseCode_members)
  ∧ length ApiResponseCode_members = 10%nat.
Proof.
  split; [reflexivity|]. split; [|split; [|reflexivity]].
  - intros c. unfold ApiResponseCode_members. destruct c; set_solver.
  - compute_done.
Qed.

(* ===================================================================== *)
(** * Grouping and joining *)
(* ===================================================================== *)

Section KeyBy.

Context {A : Type} (iteratee : A → string).

(** The value under a key is the last element of the collection that
    has this key. *)
Lemma keyBy_lookup (collection : list A) k :
  Lodash.keyBy collection iteratee !! k
  = last (filter (λ v, iteratee v = k) collection).
Proof.
  induction collection as [|v l IH] using rev_ind.
  - done.
  - unfold Lodash.keyBy in *. rewrite foldl_snoc, filter_app.
    destruct (decide (iteratee v = k)) as [Hk|Hk].
    + rewrite filter_cons_True, filter_nil by done.
      rewrite last_snoc. subst k. apply lookup_insert_eq.
    + rewrite filter_cons_False, filter_nil by done.
      rewrite app_nil_r, lookup_insert_ne by done. apply IH.
Qed.

(** Where the keys of the collection are pairwise different, two
    elements with the same key are the same element. *)
Lemma NoDup_fmap_elem_inj (l : list A) x y :
  NoDup (iteratee <$> l) → x ∈ l → y ∈ l → iteratee x = iteratee y → x = y.
Proof.
  induction l as [|z l IH]; intros Hnd Hx Hy Hxy.
  - by apply elem_of_nil in Hx.
  - rewrite fmap_cons in Hnd. apply NoDup_cons in Hnd as [Hz Hnd].
    apply elem_of_cons in Hx as [->|Hx]; apply elem_of_cons in Hy as [->|Hy].
    + done.
    + exfalso. apply Hz. rewrite Hxy. by apply list_elem_of_fmap_2.
    + exfalso. apply Hz. rewrite <- Hxy. by apply list_elem_of_fmap_2.
    + by apply IH.
Qed.

Lemma keyBy_lookup_unique (l : list A) x :
  NoDup (iteratee <$> l) → x ∈ l →
  Lodash.keyBy l iteratee !! iteratee x = Some x.
Proof.
  intros Hnd Hx. rewrite keyBy_lookup.
  destruct (last _) as [y|] eqn:Hlast.
  - apply last_Some_elem_of, list_elem_of_filter in Hlast as [Hk Hy].
    f_equal. by apply (NoDup_fmap_elem_inj l).
  - apply last_None in Hlast.
    assert (Hin : x ∈ filter (λ v, iteratee v = iteratee x) l)
      by by apply list_elem_of_filter.
    rewrite Hlast in Hin. by apply elem_of_nil in Hin.
Qed.

Lemma keyBy_lookup_absent (l : list A) k :
  (∀ x, x ∈ l → iteratee x ≠ k) → Lodash.keyBy l iteratee !! k = None.
Proof.
  intros Hno. rewrite keyBy_lookup.
  destruct (last _) as [y|] eqn:Hlast; [|done].
  apply last_Some_elem_of, list_elem_of_filter in Hlast as [Hk Hy].
  by destruct (Hno y Hy).
Qed.

End KeyBy.

(** C8: the grouping of the option list is a map, so a company code is
    bound at most once (the list of its bindings has no repeated key),
    and the record under a code is the last record of the list with that
    code. *)
Theorem keyBy_last_write_wins (optionList : list FinancialCompanyOptions.t) :
  NoDup (map_to_list
           (Lodash.keyBy optionList FinancialCompanyOptions.fin_co_no)).*1
  ∧ ∀ code,
      Lodash.keyBy optionList FinancialCompanyOptions.fin_co_no !! code
      = last (filter (λ o, FinancialCompanyOptions.fin_co_no o = code) optionList).
Proof.
  split; [apply NoDup_fst_map_to_list | intros code; apply keyBy_lookup].
Qed.

Section Read.

Context {A : Type}.
Implicit Types (object : gmap string A) (k : string).

Lemma read_own object k a :
  object !! k = Some a → PlainObject.read object k = PlainObject.Own a.
Proof. intros H. unfold PlainObject.read. by rewrite H. Qed.

Lemma read_inherited object k :
  object !! k = None → k ∈ PlainObject.Object_prototype_names →
  PlainObject.read object k = PlainObject.Inherited k.
Proof.
  intros H Hk. unfold PlainObject.read.
  by rewrite H, bool_decide_eq_true_2.
Qed.

Lemma read_undefined object k :
  object !! k = None → k ∉ PlainObject.Object_prototype_names →
  PlainObject.read object k = PlainObject.Undefined.
Proof.
  intros H Hk. unfold PlainObject.read.
  by rewrite H, bool_decide_eq_false_2.
Qed.

(** A read gives an own value only for an own property, an inherited
    member only for a name that is not own and is a name of
    [Object.prototype], and [undefined] only for a name that is
    neither. *)
Lemma read_Own_inv object k a :
  PlainObject.read object k = PlainObject.Own a → object !! k = Some a.
Proof.
  unfold PlainObject.read. destruct (object !! k); [by intros [= ->]|].
  by case_bool_decide.
Qed.

Lemma read_Inherited_inv object k name :
  PlainObject.read object k = PlainObject.Inherited name →
  name = k ∧ object !! k = None ∧ k ∈ PlainObject.Object_prototype_names.
Proof.
  unfold PlainObject.read. destruct (object !! k); [done|].
  case_bool_decide; [by intros [= <-] | done].
Qed.

Lemma read_Undefined_iff object k :
  PlainObject.read object k = PlainObject.Undefined
  ↔ object !! k = None ∧ k ∉ PlainObject.Object_prototype_names.
Proof.
  unfold PlainObject.read. destruct (object !! k).
  - split; [done | by intros [? _]].
  - case_bool_decide; split; try done. by intros [_ ?].
Qed.

End Read.

(** C3, evaluated on a base list whose second company code is
    ["constructor"]: the option list has pairwise different codes and no
    record for that code, yet [options] of the second entry is not
    [undefined] but the member that every plain object inherits under
    that name; the first entry gets its record. *)
Theorem join_attaches_inherited_member :
  let baseList := [Sample.company "0010001" "A";
                   Sample.company "constructor" "B"] in
  let optionList := [Sample.branch "0010001" "01"] in
  NoDup (FinancialCompanyOptions.fin_co_no <$> optionList)
  ∧ (∀ o, o ∈ optionList →
          FinancialCompanyOptions.fin_co_no o ≠ "constructor")
  ∧ Bank.options <$> bankList baseList optionList
    = [PlainObject.Own (Sample.branch "0010001" "01");
       PlainObject.Inherited "constructor"].
Proof.
  split; [|split].
  - apply (bool_decide_unpack _). vm_compute. exact I.
  - intros o ->%list_elem_of_singleton. discriminate.
  - reflexivity.
Qed.

(** The same read for other names of [Object.prototype], with an empty
    option list; an ordinary code reads as [undefined]. *)
Example inherited_names_are_read :
  Bank.options <$>
    bankList [Sample.company "constructor" "A"; Sample.company "toString" "B";
              Sample.company "__proto__" "C"; Sample.company "0010001" "D"] []
  = [PlainObject.Inherited "constructor"; PlainObject.Inherited "toString";
     PlainObject.Inherited "__proto__"; PlainObject.Undefined].
Proof. reflexivity. Qed.

(** X20: with pairwise different company codes in the option list, the
    join has as many entries as the base list; the entry at each position
    has the base fields of the base record at that position; its
    [options] is the option record with the same company code when the
    option list has one; when it has none, [options] is [undefined] for a
    company code that is no name of [Object.prototype], and the inherited
    member for one that is. *)
Theorem bankList_joins_each_base_once
    (baseList : list FinancialCompany.t)
    (optionList : list FinancialCompanyOptions.t) :
  NoDup (FinancialCompanyOptions.fin_co_no <$> optionList) →
  length (bankList baseList optionList) = length baseList
  ∧ Bank.base <$> bankList baseList optionList = baseList
  ∧ ∀ i bank,
      baseList !! i = Some bank →
      ∃ entry,
        bankList baseList optionList !! i = Some entry
        ∧ Bank.base entry = bank
        ∧ (∀ o, o ∈ optionList →
                FinancialCompanyOptions.fin_co_no o = FinancialCompany.fin_co_no bank →
                Bank.options entry = PlainObject.Own o)
        ∧ ((∀ o, o ∈ optionList →
                 FinancialCompanyOptions.fin_co_no o ≠ FinancialCompany.fin_co_no bank) →
           Bank.options entry
           = if bool_decide (FinancialCompany.fin_co_no bank
                             ∈ PlainObject.Object_prototype_names)
             then PlainObject.Inherited (FinancialCompany.fin_co_no bank)
             else PlainObject.Undefined).
Proof.
  intros Hnd. unfold bankList. split; [apply length_fmap|]. split.
  - rewrite <- list_fmap_compose.
    rewrite <- (list_fmap_id baseList) at 2.
    apply list_fmap_ext. intros _ [] _. reflexivity.
  - intros i bank Hi. eexists. split.
    + rewrite list_lookup_fmap, Hi. reflexivity.
    + split; [by destruct bank|]. simpl. split.
      * intros o Ho <-. by apply read_own, keyBy_lookup_unique.
      * intros Hno. unfold PlainObject.read.
        by rewrite (keyBy_lookup_absent _ _ _ Hno).
Qed.

(** Three companies and two branch records: the second company has no
    record and an ordinary code, the others get their own record. *)
Lemma bankList_joins_each_base_once_witness :
  let baseList := [Sample.company "0010001" "A"; Sample.company "0010002" "B";
                   Sample.company "0010003" "C"] in
  let optionList := [Sample.branch "0010003" "01"; Sample.branch "0010001" "02"] in
  length (bankList baseList optionList) = length baseList
  ∧ Bank.base <$> bankList baseList optionList = baseList
  ∧ ∀ i bank,
      baseList !! i = Some bank →
      ∃ entry,
        bankList baseList optionList !! i = Some entry
        ∧ Bank.base entry = bank
        ∧ (∀ o, o ∈ optionList →
                FinancialCompanyOptions.fin_co_no o = FinancialCompany.fin_co_no bank →
                Bank.options entry = PlainObject.Own o)
        ∧ ((∀ o, o ∈ optionList →
                 FinancialCompanyOptions.fin_co_no o ≠ FinancialCompany.fin_co_no bank) →
           Bank.options entry
           = if bool_decide (FinancialCompany.fin_co_no bank
                             ∈ PlainObject.Object_prototype_names)
             then PlainObject.Inherited (FinancialCompany.fin_co_no bank)
             else PlainObject.Undefined).
Proof.
  apply (bankList_joins_each_base_once
           [Sample.company "0010001" "A"; Sample.company "0010002" "B";
            Sample.company "0010003" "C"]
           [Sample.branch "0010003" "01"; Sample.branch "0010001" "02"]).
  apply (bool_decide_unpack _). vm_compute. exact I.
Defined.

(* ===================================================================== *)
(** * The scenarios of the specification, evaluated *)
(* ===================================================================== *)

Section Scenarios.

#[local] Abbreviation client := (new_KoreaFssFinlifeService Sample.process_env).

(** The failure scenario with the message where the interceptor looks for
    it: code, message and request parameters all arrive in the error. *)
Example invalid_key_is_rejected :
  (getFinancialCompanies client Sample.bank_page_1
     (Sample.answering 200 Sample.invalid_key)).1
  = Throw (KoreaFssFinlifeServiceError
             (VStr "010") (VStr "unregistered authentication key")
             (params (outgoing_request client Sample.bank_page_1))).
Proof. reflexivity. Qed.

(** A reply outside 2xx, and a transport failure, never reach the
    interceptor: the rejection is the transport's own. *)
Example http_500_is_not_translated :
  (getFinancialCompanies client Sample.bank_page_1
     (Sample.answering 500 Sample.invalid_key)).1
  = Throw (AxiosError "Request failed with status code").
Proof. reflexivity. Qed.

Example transport_failure_is_not_translated :
  (getFinancialCompanies client Sample.bank_page_1
     {| respond := λ _ _, Failed "ECONNRESET"; sent := [] |}).1
  = Throw (AxiosError "ECONNRESET").
Proof. reflexivity. Qed.

(** The query of the first-page bank call as it is serialized: the key,
    the group and the page, and no [financeCd]. *)
Example bank_page_1_query :
  map_to_list (Axios.serialized_params
                 (params (outgoing_request client Sample.bank_page_1)))
  ≡ₚ [("auth", VStr "sample-key"); ("topFinGrpNo", VStr "020000");
      ("pageNo", VNum 1)].
Proof. vm_compute. reflexivity. Qed.

Example bank_page_3_query :
  params (outgoing_request client Sample.bank_page_3) !! "pageNo" = Some (VNum 3)
  ∧ params (outgoing_request client Sample.bank_page_3) !! "financeCd"
    = Some (VStr "0010001").
Proof. split; reflexivity. Qed.

(** Two records with one code: the later one is kept. *)
Example keyBy_duplicate_code :
  Lodash.keyBy [Sample.branch "0010001" "01"; Sample.branch "0010001" "02"]
    FinancialCompanyOptions.fin_co_no !! "0010001"
  = Some (Sample.branch "0010001" "02").
Proof. reflexivity. Qed.

(** A change of the key after construction does not reach the requests. *)
Example key_is_read_once :
  (λ cfg, params cfg !! "auth") <$>
    sent (net (session
                 {| env := Sample.process_env;
                    net := Sample.answering 200 Sample.success |}
                 [Call Sample.bank_page_1;
                  SetEnv "FSS_OPEN_API_KEY" "another-key";
                  Call Sample.bank_page_3;
                  UnsetEnv "FSS_OPEN_API_KEY";
                  Call Sample.bank_page_1]))
  = [Some (VStr "sample-key"); Some (VStr "sample-key"); Some (VStr "sample-key")].
Proof. reflexivity. Qed.

End Scenarios.

(* ===================================================================== *)
(** * Every outcome of a call, and what leads to it *)
(* ===================================================================== *)

Section Outcomes.

Variable process_env : gmap string string.
#[local] Abbreviation svc := (new_KoreaFssFinlifeService process_env).

Lemma get_not_nullish v k :
  Js.nullish v = false → ∃ x, Js.get v k = Normal x.
Proof. destruct v; simpl; intros H; try done; by eexists. Qed.

(** The four ways through the interceptor: the body is nullish, its
    [result] is nullish, the status is the success code, or it is not. *)
Lemma interceptor_cases response :
  (Js.nullish (data response) = true
   ∧ response_interceptor response = Throw (TypeError (data response) "result"))
  ∨ (∃ result,
       Js.get (data response) "result" = Normal result
       ∧ Js.nullish result = true
       ∧ response_interceptor response = Throw (TypeError result "err_cd"))
  ∨ (∃ result,
       Js.get (data response) "result" = Normal result
       ∧ Js.get result "err_cd" = Normal (VStr "000")
       ∧ response_interceptor response = Normal response)
  ∨ (∃ result code message,
       Js.get (data response) "result" = Normal result
       ∧ Js.get result "err_cd" = Normal code
       ∧ Js.get result "err_msg" = Normal message
       ∧ code ≠ VStr "000"
       ∧ response_interceptor response
         = Throw (KoreaFssFinlifeServiceError code message
                    (params (config response)))).
Proof.
  destruct (Js.nullish (data response)) eqn:Hd.
  { left. split; [done|]. unfold response_interceptor.
    rewrite (opt_chain2_nullish_base _ _ _ Hd). simpl.
    rewrite (get_nullish _ "result" Hd). reflexivity. }
  destruct (get_not_nullish _ "result" Hd) as [result Hres].
  destruct (Js.nullish result) eqn:Hr.
  { right; left. exists result. split; [done|]. split; [done|].
    unfold response_interceptor.
    rewrite (opt_chain2_nullish_mid _ _ _ _ Hres Hr). simpl.
    rewrite Hres. simpl. rewrite (get_nullish _ "err_cd" Hr). reflexivity. }
  destruct (get_not_nullish _ "err_cd" Hr) as [code Hcode].
  destruct (get_not_nullish _ "err_msg" Hr) as [message Hmsg].
  destruct (Js.strict_eq_str code "000") eqn:Hc.
  - apply strict_eq_str_true in Hc as ->.
    right; right; left. exists result. split; [done|]. split; [done|].
    apply interceptor_pass. by apply (opt_chain2_get _ _ _ result).
  - apply strict_eq_str_false in Hc.
    right; right; right. exists result, code, message.
    repeat (split; [done|]). by apply (interceptor_reject _ result).
Qed.

(** A 2xx reply reaches the interceptor; the final [.then] reads [result]
    from what the interceptor lets through. *)
Lemma call_on_2xx q nw st body :
  respond nw (sent nw) (outgoing_request svc q) = Replied st body →
  200 ≤ st < 300 →
  (getFinancialCompanies svc q nw).1
  = response_interceptor
      {| data := body; status := st; config := outgoing_request svc q |}
    ≫= λ r, Js.get (data r) "result".
Proof.
  intros Hr Hst.
  by rewrite getFinancialCompanies_eq, Hr, (settle_2xx _ _ _ Hst).
Qed.

(** Anything else is rejected by the transport before the interceptor. *)
Lemma call_on_failure q nw :
  (∃ reason, respond nw (sent nw) (outgoing_request svc q) = Failed reason)
  ∨ (∃ st body,
       respond nw (sent nw) (outgoing_request svc q) = Replied st body
       ∧ ¬ 200 ≤ st < 300) →
  ∃ reason, (getFinancialCompanies svc q nw).1 = Throw (AxiosError reason).
Proof.
  intros [[reason Hr] | (st & body & Hr & Hst)];
    rewrite getFinancialCompanies_eq, Hr; simpl.
  - by eexists.
  - rewrite bool_decide_eq_false_2 by done. by eexists.
Qed.

(** The reply to a call is a transport failure, a reply outside 2xx, or a
    2xx reply. *)
Lemma reply_cases (r : reply) :
  (∃ reason, r = Failed reason)
  ∨ (∃ st body, r = Replied st body ∧ ¬ 200 ≤ st < 300)
  ∨ (∃ st body, r = Replied st body ∧ 200 ≤ st < 300).
Proof.
  destruct r as [st body|reason]; [|left; by eexists].
  destruct (decide (200 ≤ st < 300)).
  - right; right. by exists st, body.
  - right; left. by exists st, body.
Qed.

(** X1: the promise is fulfilled with [v] exactly when the reply is 2xx, [v]
    is the body's [result] and [v.err_cd] is the success code. *)
Theorem fulfilled_iff_success_envelope q nw v :
  (getFinancialCompanies svc q nw).1 = Normal v
  ↔ ∃ st body,
      respond nw (sent nw) (outgoing_request svc q) = Replied st body
      ∧ 200 ≤ st < 300
      ∧ Js.get body "result" = Normal v
      ∧ Js.get v "err_cd" = Normal (VStr "000").
Proof.
  split.
  - intros Hout.
    destruct (reply_cases (respond nw (sent nw) (outgoing_request svc q)))
      as [Hf | [Hf | (st & body & Hr & Hst)]].
    + destruct (call_on_failure q nw (or_introl Hf)) as [reason He].
      by rewrite He in Hout.
    + destruct (call_on_failure q nw (or_intror Hf)) as [reason He].
      by rewrite He in Hout.
    + exists st, body. split; [done|]. split; [done|].
      rewrite (call_on_2xx _ _ _ _ Hr Hst) in Hout.
      destruct (interceptor_cases
                  {| data := body; status := st;
                     config := outgoing_request svc q |})
        as [[_ He] | [(r & _ & _ & He) | [(r & Hres & Hcode & He)
                                         | (r & c & m & _ & _ & _ & _ & He)]]];
        rewrite He in Hout; simpl in *; try done.
      rewrite Hres in Hout. injection Hout as <-. done.
  - intros (st & body & Hr & Hst & Hres & Hcode).
    rewrite (getFinancialCompanies_fulfils _ _ _ st body); [done..|].
    by apply (opt_chain2_get _ _ _ v).
Qed.

(** What a typed rejection tells about the exchange. *)
Lemma typed_error_inv q nw code message ps :
  (getFinancialCompanies svc q nw).1
  = Throw (KoreaFssFinlifeServiceError code message ps) →
  ∃ st body result,
    respond nw (sent nw) (outgoing_request svc q) = Replied st body
    ∧ 200 ≤ st < 300
    ∧ Js.get body "result" = Normal result
    ∧ Js.get result "err_cd" = Normal code
    ∧ Js.get result "err_msg" = Normal message
    ∧ code ≠ VStr "000"
    ∧ ps = params (outgoing_request svc q).
Proof.
  intros Hout.
  destruct (reply_cases (respond nw (sent nw) (outgoing_request svc q)))
    as [Hf | [Hf | (st & body & Hr & Hst)]].
  - destruct (call_on_failure q nw (or_introl Hf)) as [reason He].
    by rewrite He in Hout.
  - destruct (call_on_failure q nw (or_intror Hf)) as [reason He].
    by rewrite He in Hout.
  - exists st, body.
    rewrite (call_on_2xx _ _ _ _ Hr Hst) in Hout.
    destruct (interceptor_cases
                {| data := body; status := st;
                   config := outgoing_request svc q |})
      as [[_ He] | [(r & _ & _ & He) | [(r & Hres & Hcode & He)
                                       | (r & c & m & Hres & Hc & Hm & Hne & He)]]];
      rewrite He in Hout; simpl in *; try done.
    + by rewrite Hres in Hout.
    + injection Hout as <- <- <-. by exists r.
Qed.

(** X2: the promise is rejected with the typed error exactly when the reply
    is 2xx, the body has a [result] that is not nullish and whose
    [err_cd] is not the success code; the error then holds that
    [err_cd], that [err_msg] and the request's merged parameters. *)
Theorem typed_error_iff_non_success_envelope q nw code message ps :
  (getFinancialCompanies svc q nw).1
  = Throw (KoreaFssFinlifeServiceError code message ps)
  ↔ ∃ st body result,
      respond nw (sent nw) (outgoing_request svc q) = Replied st body
      ∧ 200 ≤ st < 300
      ∧ Js.get body "result" = Normal result
      ∧ Js.get result "err_cd" = Normal code
      ∧ Js.get result "err_msg" = Normal message
      ∧ code ≠ VStr "000"
      ∧ ps = params (outgoing_request svc q).
Proof.
  split.
  - apply typed_error_inv.
  - intros (st & body & result & Hr & Hst & Hres & Hcode & Hmsg & Hne & ->).
    by apply (getFinancialCompanies_rejects _ _ _ st body result).
Qed.

(** X3: the promise is rejected with a [TypeError] exactly when the reply is
    2xx and the body is nullish (the read of [result] fails) or its
    [result] is nullish (the read of [err_cd] fails). *)
Theorem type_error_iff_no_result q nw base property :
  (getFinancialCompanies svc q nw).1 = Throw (TypeError base property)
  ↔ ∃ st body,
      respond nw (sent nw) (outgoing_request svc q) = Replied st body
      ∧ 200 ≤ st < 300
      ∧ ((Js.nullish body = true ∧ base = body ∧ property = "result")
         ∨ (Js.get body "result" = Normal base
            ∧ Js.nullish base = true ∧ property = "err_cd")).
Proof.
  split.
  - intros Hout.
    destruct (reply_cases (respond nw (sent nw) (outgoing_request svc q)))
      as [Hf | [Hf | (st & body & Hr & Hst)]].
    + destruct (call_on_failure q nw (or_introl Hf)) as [reason He].
      by rewrite He in Hout.
    + destruct (call_on_failure q nw (or_intror Hf)) as [reason He].
      by rewrite He in Hout.
    + exists st, body. split; [done|]. split; [done|].
      rewrite (call_on_2xx _ _ _ _ Hr Hst) in Hout.
      destruct (interceptor_cases
                  {| data := body; status := st;
                     config := outgoing_request svc q |})
        as [[Hn He] | [(r & Hres & Hn & He) | [(r & Hres & Hcode & He)
                                              | (r & c & m & _ & _ & _ & _ & He)]]];
        rewrite He in Hout; simpl in *; try done.
      * injection Hout as <- <-. by left.
      * injection Hout as <- <-. by right.
      * by rewrite Hres in Hout.
  - intros (st & body & Hr & Hst & [(Hn & -> & ->) | (Hres & Hn & ->)]);
      rewrite (call_on_2xx _ _ _ _ Hr Hst);
      destruct (interceptor_cases
                  {| data := body; status := st;
                     config := outgoing_request svc q |})
        as [[Hn' He] | [(r & Hres' & Hn' & He) | [(r & Hres' & Hcode & He)
                                                 | (r & c & m & Hres' & Hc & _ & _ & He)]]];
      simpl in *; rewrite He; simpl; try done.
    + by rewrite (get_nullish _ "result" Hn) in Hres'.
    + by rewrite (get_nullish _ "result" Hn) in Hres'.
    + by rewrite (get_nullish _ "result" Hn) in Hres'.
    + by rewrite (get_Normal_not_nullish _ _ _ Hres) in Hn'.
    + rewrite Hres in Hres'. by injection Hres' as ->.
    + rewrite Hres in Hres'. injection Hres' as ->.
      by rewrite (get_nullish _ "err_cd" Hn) in Hcode.
    + rewrite Hres in Hres'. injection Hres' as ->.
      by rewrite (get_nullish _ "err_cd" Hn) in Hc.
Qed.

(** X4: the promise is rejected with the transport's own error exactly when
    the exchange failed or the reply is outside 2xx: the typed error is
    never built for those, and no 2xx reply is turned into one. *)
Theorem transport_error_iff_no_2xx q nw :
  (∃ reason, (getFinancialCompanies svc q nw).1 = Throw (AxiosError reason))
  ↔ (∃ reason, respond nw (sent nw) (outgoing_request svc q) = Failed reason)
    ∨ (∃ st body,
         respond nw (sent nw) (outgoing_request svc q) = Replied st body
         ∧ ¬ 200 ≤ st < 300).
Proof.
  split; [|apply call_on_failure].
  intros [reason Hout].
  destruct (reply_cases (respond nw (sent nw) (outgoing_request svc q)))
    as [Hf | [Hf | (st & body & Hr & Hst)]]; [by left | by right |].
  exfalso. rewrite (call_on_2xx _ _ _ _ Hr Hst) in Hout.
  destruct (interceptor_cases
              {| data := body; status := st;
                 config := outgoing_request svc q |})
    as [[_ He] | [(r & _ & _ & He) | [(r & Hres & Hcode & He)
                                     | (r & c & m & _ & _ & _ & _ & He)]]];
    rewrite He in Hout; simpl in *; try done.
  by rewrite Hres in Hout.
Qed.

End Outcomes.

Lemma fulfilled_iff_success_envelope_witness :
  (getFinancialCompanies (new_KoreaFssFinlifeService Sample.process_env)
     Sample.bank_page_1 (Sample.answering 200 Sample.success)).1
  = Normal Sample.success_result.
Proof.
  apply (proj2 (fulfilled_iff_success_envelope Sample.process_env
                  Sample.bank_page_1 (Sample.answering 200 Sample.success)
                  Sample.success_result)).
  exists 200, Sample.success. repeat split; try reflexivity; lia.
Defined.

Lemma typed_error_iff_non_success_envelope_witness :
  (getFinancialCompanies (new_KoreaFssFinlifeService Sample.process_env)
     Sample.bank_page_1 (Sample.answering 200 Sample.system_error)).1
  = Throw (KoreaFssFinlifeServiceError (VStr "900") (VStr "system error")
             (params (outgoing_request
                        (new_KoreaFssFinlifeService Sample.process_env)
                        Sample.bank_page_1))).
Proof.
  apply (proj2 (typed_error_iff_non_success_envelope Sample.process_env
                  Sample.bank_page_1
                  (Sample.answering 200 Sample.system_error) _ _ _)).
  exists 200, Sample.system_error,
    (VObj [("err_cd", VStr "900"); ("err_msg", VStr "system error")]).
  repeat split; try reflexivity; try lia; discriminate.
Defined.

Lemma type_error_iff_no_result_witness :
  (getFinancialCompanies (new_KoreaFssFinlifeService Sample.process_env)
     Sample.bank_page_1 (Sample.answering 200 VNull)).1
  = Throw (TypeError VNull "result").
Proof.
  apply (proj2 (type_error_iff_no_result Sample.process_env
                  Sample.bank_page_1 (Sample.answering 200 VNull) _ _)).
  exists 200, VNull. split; [reflexivity|]. split; [lia|].
  left. repeat split; reflexivity.
Defined.

Lemma transport_error_iff_no_2xx_witness :
  ∃ reason,
    (getFinancialCompanies (new_KoreaFssFinlifeService Sample.process_env)
       Sample.bank_page_1 (Sample.answering 404 Sample.success)).1
    = Throw (AxiosError reason).
Proof.
  apply (proj2 (transport_error_iff_no_2xx Sample.process_env
                  Sample.bank_page_1 (Sample.answering 404 Sample.success))).
  right. exists 404, Sample.success. split; [reflexivity | lia].
Defined.

(* ===================================================================== *)
(** * What a rejection holds *)
(* ===================================================================== *)

Section Rejections.

Variable process_env : gmap string string.
#[local] Abbreviation svc := (new_KoreaFssFinlifeService process_env).

(** X5: a [result] object that has no [err_cd] at all is not a success: the
    promise is rejected with the typed error, whose code is [undefined]
    and whose message is whatever [err_msg] reads. *)
Theorem result_without_err_cd_is_rejected q nw st body props :
  respond nw (sent nw) (outgoing_request svc q) = Replied st body →
  200 ≤ st < 300 →
  Js.get body "result" = Normal (VObj props) →
  Js.own props "err_cd" = None →
  (getFinancialCompanies svc q nw).1
  = Throw (KoreaFssFinlifeServiceError VUndefined
             (default VUndefined (Js.own props "err_msg"))
             (params (outgoing_request svc q))).
Proof.
  intros Hr Hst Hres Hcode.
  apply (getFinancialCompanies_rejects _ _ _ st body (VObj props));
    try done.
  simpl. by rewrite Hcode.
Qed.

Lemma outgoing_dom q : dom (params (outgoing_request svc q)) = query_names.
Proof.
  simpl. unfold request_params, query_names.
  rewrite dom_union_L, !dom_insert_L, !dom_singleton_L. set_solver.
Qed.

(** X6: the typed error's [requestParams] is the merged parameter object:
    besides the three parameters of the call it binds [auth] to the
    authentication key, and it binds nothing else. *)
Theorem typed_error_holds_key_and_query q nw code message ps :
  (getFinancialCompanies svc q nw).1
  = Throw (KoreaFssFinlifeServiceError code message ps) →
  ps !! "auth" = Some (Js.env_get process_env "FSS_OPEN_API_KEY")
  ∧ ps !! "topFinGrpNo" = Some (VStr (FinancialGroupCode_value (groupCode q)))
  ∧ ps !! "financeCd" = Some (from_option VStr VUndefined (financeCode q))
  ∧ ps !! "pageNo" = Some (VNum (default 1 (pageNo q)))
  ∧ dom ps = query_names.
Proof.
  intros Hout.
  destruct (typed_error_inv _ _ _ _ _ _ Hout)
    as (st & body & result & _ & _ & _ & _ & _ & _ & ->).
  split; [apply outgoing_auth|].
  split; [apply outgoing_call_param, request_params_topFinGrpNo|].
  split; [apply outgoing_call_param, request_params_financeCd|].
  split; [apply outgoing_call_param, request_params_pageNo|].
  apply outgoing_dom.
Qed.

End Rejections.

Lemma result_without_err_cd_is_rejected_witness :
  (getFinancialCompanies (new_KoreaFssFinlifeService Sample.process_env)
     Sample.bank_page_1
     (Sample.answering 200 (VObj [("result", VObj [("total_count", VNum 0)])]))).1
  = Throw (KoreaFssFinlifeServiceError VUndefined VUndefined
             (params (outgoing_request
                        (new_KoreaFssFinlifeService Sample.process_env)
                        Sample.bank_page_1))).
Proof.
  apply (result_without_err_cd_is_rejected Sample.process_env
           Sample.bank_page_1
           (Sample.answering 200
              (VObj [("result", VObj [("total_count", VNum 0)])]))
           200 (VObj [("result", VObj [("total_count", VNum 0)])])
           [("total_count", VNum 0)]);
    try reflexivity; lia.
Defined.

Lemma typed_error_holds_key_and_query_witness :
  params (outgoing_request (new_KoreaFssFinlifeService Sample.process_env)
            Sample.bank_page_1) !! "auth"
  = Some (Js.env_get Sample.process_env "FSS_OPEN_API_KEY").
Proof.
  apply (typed_error_holds_key_and_query Sample.process_env
           Sample.bank_page_1 (Sample.answering 200 Sample.invalid_key)
           (VStr "010") (VStr "unregistered authentication key")).
  reflexivity.
Defined.

(* ===================================================================== *)
(** * The request, name by name *)
(* ===================================================================== *)

Section Query.

Implicit Types (q : CompaniesQuery) (process_env : gmap string string).

Lemma FinancialGroupCode_value_inj g1 g2 :
  FinancialGroupCode_value g1 = FinancialGroupCode_value g2 → g1 = g2.
Proof. by destruct g1, g2. Qed.

(** X7: the five group codes and their wire strings, pairwise different; the
    [topFinGrpNo] of a request is always one of them. *)
Theorem group_code_taxonomy :
  FinancialGroupCode_value <$> FinancialGroupCode_members
  = ["020000"; "030200"; "030300"; "050000"; "060000"]
  ∧ (∀ g : FinancialGroupCode, g ∈ FinancialGroupCode_members)
  ∧ NoDup (FinancialGroupCode_value <$> FinancialGroupCode_members)
  ∧ ∀ svc q,
      ∃ s, params (outgoing_request svc q) !! "topFinGrpNo" = Some (VStr s)
           ∧ s ∈ ["020000"; "030200"; "030300"; "050000"; "060000"].
Proof.
  split; [reflexivity|]. split; [|split].
  - intros g. unfold FinancialGroupCode_members. destruct g; set_solver.
  - compute_done.
  - intros svc q. exists (FinancialGroupCode_value (groupCode q)).
    split; [apply outgoing_call_param, request_params_topFinGrpNo|].
    destruct (groupCode q); set_solver.
Qed.

Lemma outgoing_other_name process_env q k :
  k ≠ "auth" → k ≠ "topFinGrpNo" → k ≠ "financeCd" → k ≠ "pageNo" →
  params (outgoing_request (new_KoreaFssFinlifeService process_env) q) !! k
  = None.
Proof.
  intros Ha Hg Hf Hp. apply not_elem_of_dom.
  rewrite outgoing_dom. unfold query_names.
  rewrite !not_elem_of_union, !not_elem_of_singleton. done.
Qed.

(** X8: the serialized query, for every name: [auth] is there exactly when
    the key was set, [financeCd] exactly when a filter was given (an
    empty filter string included), [topFinGrpNo] and [pageNo] always, and
    no other name ever. *)
Theorem serialized_query process_env q k :
  Axios.serialized_params
    (params (outgoing_request (new_KoreaFssFinlifeService process_env) q)) !! k
  = if decide (k = "auth") then VStr <$> process_env !! "FSS_OPEN_API_KEY"
    else if decide (k = "topFinGrpNo")
         then Some (VStr (FinancialGroupCode_value (groupCode q)))
    else if decide (k = "financeCd") then VStr <$> financeCode q
    else if decide (k = "pageNo") then Some (VNum (default 1 (pageNo q)))
    else None.
Proof.
  repeat case_decide; simplify_eq.
  - apply outgoing_auth_serialized.
  - apply map_lookup_filter_Some_2; [|done].
    apply outgoing_call_param, request_params_topFinGrpNo.
  - pose proof (outgoing_call_param
                  (new_KoreaFssFinlifeService process_env) q _ _
                  (request_params_financeCd q)) as Hfc.
    unfold Axios.serialized_params.
    destruct (financeCode q) as [s|]; simpl in *.
    + by apply map_lookup_filter_Some_2.
    + apply map_lookup_filter_None. right. intros x Hx.
      rewrite Hfc in Hx. by injection Hx as <-.
  - apply map_lookup_filter_Some_2; [|done].
    apply outgoing_call_param, request_params_pageNo.
  - apply map_lookup_filter_None. left. by apply outgoing_other_name.
Qed.

(** X9: two queries put the same request on the wire exactly when they name
    the same group and the same filter and their page numbers agree after
    the default: leaving [pageNo] out and passing 1 are the same call. *)
Theorem same_request_iff svc q1 q2 :
  outgoing_request svc q1 = outgoing_request svc q2
  ↔ groupCode q1 = groupCode q2
    ∧ financeCode q1 = financeCode q2
    ∧ default 1 (pageNo q1) = default 1 (pageNo q2).
Proof.
  split.
  - intros Heq.
    assert (Hk : ∀ k, params (outgoing_request svc q1) !! k
                      = params (outgoing_request svc q2) !! k)
      by (intros k; by rewrite Heq).
    pose proof (Hk "topFinGrpNo") as Hg.
    pose proof (Hk "financeCd") as Hf.
    pose proof (Hk "pageNo") as Hp.
    rewrite !(outgoing_call_param _ _ _ _ (request_params_topFinGrpNo _)) in Hg.
    rewrite !(outgoing_call_param _ _ _ _ (request_params_financeCd _)) in Hf.
    rewrite !(outgoing_call_param _ _ _ _ (request_params_pageNo _)) in Hp.
    injection Hg as Hg. injection Hf as Hf. injection Hp as Hp.
    split; [by apply FinancialGroupCode_value_inj|]. split; [|done].
    destruct (financeCode q1), (financeCode q2); simpl in Hf; congruence.
  - intros (Hg & Hf & Hp). unfold outgoing_request, request_params.
    by rewrite Hg, Hf, Hp.
Qed.

End Query.

Lemma same_request_iff_witness :
  outgoing_request (new_KoreaFssFinlifeService Sample.process_env)
    {| groupCode := 보험; financeCode := None; pageNo := Some 1 |}
  = outgoing_request (new_KoreaFssFinlifeService Sample.process_env)
      {| groupCode := 보험; financeCode := None; pageNo := None |}.
Proof.
  apply (proj2 (same_request_iff _ _ _)). repeat split; reflexivity.
Defined.

(* ===================================================================== *)
(** * Calls over time: nothing is remembered *)
(* ===================================================================== *)

Section Stateless.

(** The client is the same for any two environments that agree on the
    key: no other variable is read. *)
Lemma new_service_key_only env1 env2 :
  env1 !! "FSS_OPEN_API_KEY" = env2 !! "FSS_OPEN_API_KEY" →
  new_KoreaFssFinlifeService env1 = new_KoreaFssFinlifeService env2.
Proof.
  intros H. unfold new_KoreaFssFinlifeService, Js.env_get. by rewrite H.
Qed.

(** X10: what the client sends does not depend on what it receives, nor on
    the environment beyond the key at construction: two runs of the same
    events against different servers, from environments with the same
    key, log the same requests.  No reply makes the client send another
    request, drop one, or change one. *)
Theorem requests_do_not_depend_on_replies w1 w2 es :
  env w1 !! "FSS_OPEN_API_KEY" = env w2 !! "FSS_OPEN_API_KEY" →
  sent (net w1) = sent (net w2) →
  sent (net (session w1 es)) = sent (net (session w2 es)).
Proof.
  intros Hkey Hsent. unfold session.
  rewrite !run_sent, Hsent. by rewrite (new_service_key_only _ _ Hkey).
Qed.

(** X11: every request of a run goes to the one endpoint, as a GET, and binds
    exactly the four names of the query. *)
Theorem every_request_targets_company_search w es :
  ∃ requests,
    sent (net (session w es)) = sent (net w) ++ requests
    ∧ Forall (λ cfg, baseURL cfg = "https://finlife.fss.or.kr/finlifeapi"
                     ∧ url cfg = "/companySearch.json"
                     ∧ method cfg = "get"
                     ∧ dom (params cfg) = query_names)
        requests.
Proof.
  exists (outgoing_request (new_KoreaFssFinlifeService (env w)) <$> calls es).
  split; [apply run_sent|].
  apply Forall_fmap, Forall_forall. intros q _. simpl.
  repeat (split; [reflexivity|]). apply outgoing_dom.
Qed.

(** X12: the interceptor lets a response through untouched or not at all, and
    passing a response through it twice is the same as once. *)
Theorem interceptor_leaves_response_untouched response :
  (∀ r, response_interceptor response = Normal r → r = response)
  ∧ (response_interceptor response ≫= response_interceptor)
    = response_interceptor response.
Proof.
  destruct (interceptor_cases response)
    as [[_ He] | [(r & _ & _ & He) | [(r & Hres & Hcode & He)
                                     | (r & c & m & _ & _ & _ & _ & He)]]];
    rewrite He; simpl; (split; [intros r' [=]; done | try done]).
Qed.

End Stateless.

Lemma requests_do_not_depend_on_replies_witness :
  sent (net (session
               {| env := Sample.process_env;
                  net := Sample.answering 200 Sample.success |}
               [Call Sample.bank_page_1; Call Sample.bank_page_3]))
  = sent (net (session
                 {| env := <["HOME" := "/root"]> Sample.process_env;
                    net := Sample.answering 500 VNull |}
                 [Call Sample.bank_page_1; Call Sample.bank_page_3])).
Proof.
  apply (requests_do_not_depend_on_replies
           {| env := Sample.process_env;
              net := Sample.answering 200 Sample.success |}
           {| env := <["HOME" := "/root"]> Sample.process_env;
              net := Sample.answering 500 VNull |});
    reflexivity.
Defined.

Lemma interceptor_leaves_response_untouched_witness :
  Sample.response_of Sample.success = Sample.response_of Sample.success
  ∧ (response_interceptor (Sample.response_of Sample.invalid_key)
     ≫= response_interceptor)
    = response_interceptor (Sample.response_of Sample.invalid_key).
Proof.
  split.
  - apply (proj1 (interceptor_leaves_response_untouched
                    (Sample.response_of Sample.success))).
    reflexivity.
  - apply (proj2 (interceptor_leaves_response_untouched
                    (Sample.response_of Sample.invalid_key))).
Defined.

(* ===================================================================== *)
(** * More on the grouping *)
(* ===================================================================== *)

Section KeyByMore.

Context {A : Type} (iteratee : A → string).

Lemma keyBy_lookup_Some (l : list A) k v :
  Lodash.keyBy l iteratee !! k = Some v →
  v ∈ l ∧ iteratee v = k ∧ last (filter (λ x, iteratee x = k) l) = Some v.
Proof.
  rewrite keyBy_lookup. intros Hlast.
  pose proof Hlast as Hin.
  apply last_Some_elem_of, list_elem_of_filter in Hin as [Hk Hv]. done.
Qed.

Lemma keyBy_dom (l : list A) :
  dom (Lodash.keyBy l iteratee) = list_to_set (iteratee <$> l).
Proof.
  induction l as [|v l IH] using rev_ind.
  - unfold Lodash.keyBy. simpl. apply dom_empty_L.
  - unfold Lodash.keyBy in *.
    rewrite foldl_snoc, dom_insert_L, IH, fmap_app, list_to_set_app_L.
    simpl. rewrite (right_id_L ∅ (∪)). apply (comm_L (∪)).
Qed.

Lemma keyBy_app (l1 l2 : list A) :
  Lodash.keyBy (l1 ++ l2) iteratee
  = Lodash.keyBy l2 iteratee ∪ Lodash.keyBy l1 iteratee.
Proof.
  apply map_eq. intros k.
  rewrite lookup_union, !keyBy_lookup, filter_app, last_app.
  by destruct (last (filter _ l2)), (last (filter _ l1)).
Qed.

Lemma size_list_to_set_le (l : list string) :
  (size (list_to_set l : gset string) ≤ length l)%nat.
Proof.
  induction l as [|x l IH].
  - done.
  - rewrite list_to_set_cons, length_cons.
    destruct (decide (x ∈ l)) as [Hx|Hx].
    + rewrite subseteq_union_1_L; [lia|].
      by apply singleton_subseteq_l, elem_of_list_to_set.
    + rewrite size_union, size_singleton; [lia|].
      by apply disjoint_singleton_l; rewrite elem_of_list_to_set.
Qed.

Lemma size_list_to_set_NoDup (l : list string) :
  size (list_to_set l : gset string) = length l ↔ NoDup l.
Proof.
  split; [|apply size_list_to_set].
  induction l as [|x l IH]; intros Hsize; [constructor|].
  rewrite list_to_set_cons, length_cons in Hsize.
  destruct (decide (x ∈ l)) as [Hx|Hx].
  - rewrite subseteq_union_1_L in Hsize
      by by apply singleton_subseteq_l, elem_of_list_to_set.
    pose proof (size_list_to_set_le l). lia.
  - rewrite size_union, size_singleton in Hsize
      by (by apply disjoint_singleton_l; rewrite elem_of_list_to_set).
    constructor; [done|]. apply IH. lia.
Qed.

End KeyByMore.

(** X14: what the grouping binds: a company code is bound exactly when some
    record of the list has it, and the record under a code is a record
    of the list that has this code. *)
Theorem keyBy_binds_exactly_the_codes
    (optionList : list FinancialCompanyOptions.t) :
  dom (Lodash.keyBy optionList FinancialCompanyOptions.fin_co_no)
  = list_to_set (FinancialCompanyOptions.fin_co_no <$> optionList)
  ∧ ∀ code o,
      Lodash.keyBy optionList FinancialCompanyOptions.fin_co_no !! code = Some o →
      o ∈ optionList ∧ FinancialCompanyOptions.fin_co_no o = code.
Proof.
  split; [apply keyBy_dom|].
  intros code o H. by destruct (keyBy_lookup_Some _ _ _ _ H) as (? & ? & _).
Qed.

(** X15: grouping a list made of two parts is grouping each part and letting
    the second part's bindings win. *)
Theorem keyBy_of_two_parts (l1 l2 : list FinancialCompanyOptions.t) :
  Lodash.keyBy (l1 ++ l2) FinancialCompanyOptions.fin_co_no
  = Lodash.keyBy l2 FinancialCompanyOptions.fin_co_no
    ∪ Lodash.keyBy l1 FinancialCompanyOptions.fin_co_no.
Proof. apply keyBy_app. Qed.

(** X16: the grouping never has more bindings than the list has records, and
    it has as many exactly when no company code repeats: with a repeated
    code, records are lost. *)
Theorem keyBy_loses_records_iff_codes_repeat
    (optionList : list FinancialCompanyOptions.t) :
  (size (Lodash.keyBy optionList FinancialCompanyOptions.fin_co_no)
   ≤ length optionList)%nat
  ∧ (size (Lodash.keyBy optionList FinancialCompanyOptions.fin_co_no)
     = length optionList
     ↔ NoDup (FinancialCompanyOptions.fin_co_no <$> optionList)).
Proof.
  rewrite <- (size_dom (D := gset string)), keyBy_dom.
  rewrite <- (length_fmap FinancialCompanyOptions.fin_co_no optionList).
  split; [apply size_list_to_set_le | apply size_list_to_set_NoDup].
Qed.

Lemma keyBy_binds_exactly_the_codes_witness :
  Sample.branch "0010001" "02"
  ∈ [Sample.branch "0010001" "01"; Sample.branch "0010001" "02"]
  ∧ FinancialCompanyOptions.fin_co_no (Sample.branch "0010001" "02")
    = "0010001".
Proof.
  apply (proj2 (keyBy_binds_exactly_the_codes
                  [Sample.branch "0010001" "01"; Sample.branch "0010001" "02"])
           "0010001" (Sample.branch "0010001" "02")).
  reflexivity.
Defined.

Lemma keyBy_loses_records_iff_codes_repeat_witness :
  size (Lodash.keyBy [Sample.branch "0010001" "01"; Sample.branch "0010002" "01"]
          FinancialCompanyOptions.fin_co_no)
  = length [Sample.branch "0010001" "01"; Sample.branch "0010002" "01"].
Proof.
  apply (proj2 (proj2 (keyBy_loses_records_iff_codes_repeat
                         [Sample.branch "0010001" "01";
                          Sample.branch "0010002" "01"]))).
  apply (bool_decide_unpack _). vm_compute. exact I.
Defined.

(* ===================================================================== *)
(** * More on the join *)
(* ===================================================================== *)

Section Join.

Implicit Types (baseList : list FinancialCompany.t)
  (optionList : list FinancialCompanyOptions.t) (entry : Bank.t).

Lemma bankList_elem baseList optionList entry :
  entry ∈ bankList baseList optionList →
  ∃ bank,
    bank ∈ baseList
    ∧ Bank.base entry = bank
    ∧ Bank.fin_co_no entry = FinancialCompany.fin_co_no bank
    ∧ Bank.options entry
      = PlainObject.read
          (Lodash.keyBy optionList FinancialCompanyOptions.fin_co_no)
          (FinancialCompany.fin_co_no bank).
Proof.
  unfold bankList. intros (bank & -> & Hbank)%list_elem_of_fmap.
  exists bank. by destruct bank.
Qed.

(** A code has no binding in the grouping exactly when no record of the
    list has it. *)
Lemma keyBy_lookup_None_iff optionList code :
  Lodash.keyBy optionList FinancialCompanyOptions.fin_co_no !! code = None
  ↔ ∀ o, o ∈ optionList → FinancialCompanyOptions.fin_co_no o ≠ code.
Proof.
  split; [|apply keyBy_lookup_absent].
  intros Hnone o Ho Heq.
  apply not_elem_of_dom in Hnone. apply Hnone.
  rewrite keyBy_dom, elem_of_list_to_set, <- Heq.
  by apply list_elem_of_fmap_2.
Qed.

(** X17: the join with no assumption on the codes: as many entries as base
    records, the base fields of each in place, and as [options] of each
    the last record of the option list that has its company code; when
    there is none, the member inherited from [Object.prototype] if the
    code is one of its names, and [undefined] otherwise.  Of several
    records for a company only the last is attached. *)
Theorem bankList_entries baseList optionList :
  length (bankList baseList optionList) = length baseList
  ∧ Bank.base <$> bankList baseList optionList = baseList
  ∧ Bank.options <$> bankList baseList optionList
    = (λ bank,
         match last (filter (λ o, FinancialCompanyOptions.fin_co_no o
                                  = FinancialCompany.fin_co_no bank) optionList)
         with
         | Some o => PlainObject.Own o
         | None =>
             if bool_decide (FinancialCompany.fin_co_no bank
                             ∈ PlainObject.Object_prototype_names)
             then PlainObject.Inherited (FinancialCompany.fin_co_no bank)
             else PlainObject.Undefined
         end)
      <$> baseList.
Proof.
  unfold bankList. split; [apply length_fmap|]. split.
  - rewrite <- list_fmap_compose.
    rewrite <- (list_fmap_id baseList) at 2.
    apply list_fmap_ext. intros _ [] _. reflexivity.
  - rewrite <- list_fmap_compose.
    apply list_fmap_ext. intros _ bank _. simpl.
    unfold PlainObject.read. by rewrite keyBy_lookup.
Qed.

(** X18: what can be attached to an entry.  An option record attached to
    it is a record of the option list, has the entry's company code, and
    is the last record of the list with that code: a record followed by
    another one for the same company is attached nowhere.  Anything else
    attached is the member of [Object.prototype] named by the entry's
    company code, and then no record of the list has that code. *)
Theorem attached_options_belong baseList optionList entry :
  entry ∈ bankList baseList optionList →
  (∀ o,
     Bank.options entry = PlainObject.Own o →
     o ∈ optionList
     ∧ FinancialCompanyOptions.fin_co_no o = Bank.fin_co_no entry
     ∧ last (filter (λ x, FinancialCompanyOptions.fin_co_no x
                          = FinancialCompanyOptions.fin_co_no o) optionList)
       = Some o)
  ∧ (∀ name,
       Bank.options entry = PlainObject.Inherited name →
       name = Bank.fin_co_no entry
       ∧ name ∈ PlainObject.Object_prototype_names
       ∧ ∀ o, o ∈ optionList → FinancialCompanyOptions.fin_co_no o ≠ name).
Proof.
  intros (bank & _ & _ & Hcode & Hopt)%bankList_elem.
  rewrite Hopt, Hcode. split.
  - intros o Ho%read_Own_inv.
    destruct (keyBy_lookup_Some _ _ _ _ Ho) as (Hin & Hk & Hlast).
    split; [done|]. split; [done|]. by rewrite Hk.
  - intros name (-> & Hnone & Hname)%read_Inherited_inv.
    split; [done|]. split; [done|]. by apply keyBy_lookup_None_iff.
Qed.

(** X19: an entry has [undefined] as [options] exactly when no record of
    the option list has its company code and the code is no name of
    [Object.prototype]. *)
Theorem options_undefined_iff_nothing_to_read baseList optionList entry :
  entry ∈ bankList baseList optionList →
  Bank.options entry = PlainObject.Undefined
  ↔ (∀ o, o ∈ optionList →
          FinancialCompanyOptions.fin_co_no o ≠ Bank.fin_co_no entry)
    ∧ Bank.fin_co_no entry ∉ PlainObject.Object_prototype_names.
Proof.
  intros (bank & _ & _ & Hcode & Hopt)%bankList_elem.
  rewrite Hopt, Hcode, read_Undefined_iff.
  by rewrite keyBy_lookup_None_iff.
Qed.

End Join.

Lemma attached_options_belong_witness :
  let optionList := [Sample.branch "0010001" "01"; Sample.branch "0010001" "02"] in
  (Sample.branch "0010001" "02" ∈ optionList
   ∧ FinancialCompanyOptions.fin_co_no (Sample.branch "0010001" "02") = "0010001"
   ∧ last (filter (λ x, FinancialCompanyOptions.fin_co_no x
                        = FinancialCompanyOptions.fin_co_no
                            (Sample.branch "0010001" "02")) optionList)
     = Some (Sample.branch "0010001" "02"))
  ∧ ("toString" ∈ PlainObject.Object_prototype_names
     ∧ ∀ o, o ∈ optionList → FinancialCompanyOptions.fin_co_no o ≠ "toString").
Proof.
  split.
  - apply (proj1 (attached_options_belong
                    [Sample.company "0010001" "A"; Sample.company "toString" "B"]
                    [Sample.branch "0010001" "01"; Sample.branch "0010001" "02"]
                    {| Bank.dcls_month := "202401"; Bank.fin_co_no := "0010001";
                       Bank.kor_co_nm := "A"; Bank.dcls_chrg_man := "";
                       Bank.homp_url := ""; Bank.cal_tel := "";
                       Bank.options :=
                         PlainObject.Own (Sample.branch "0010001" "02") |}
                    ltac:(vm_compute; apply list_elem_of_here))).
    reflexivity.
  - apply (proj2 (attached_options_belong
                    [Sample.company "0010001" "A"; Sample.company "toString" "B"]
                    [Sample.branch "0010001" "01"; Sample.branch "0010001" "02"]
                    {| Bank.dcls_month := "202401"; Bank.fin_co_no := "toString";
                       Bank.kor_co_nm := "B"; Bank.dcls_chrg_man := "";
                       Bank.homp_url := ""; Bank.cal_tel := "";
                       Bank.options := PlainObject.Inherited "toString" |}
                    ltac:(vm_compute; apply list_elem_of_further,
                                        list_elem_of_here))
             "toString").
    reflexivity.
Defined.

Lemma options_undefined_iff_nothing_to_read_witness :
  (∀ o, o ∈ [Sample.branch "0010001" "01"; Sample.branch "0010003" "01"] →
        FinancialCompanyOptions.fin_co_no o ≠ "0010002")
  ∧ "0010002" ∉ PlainObject.Object_prototype_names.
Proof.
  apply (proj1 (options_undefined_iff_nothing_to_read
                  [Sample.company "0010001" "A"; Sample.company "0010002" "B"]
                  [Sample.branch "0010001" "01"; Sample.branch "0010003" "01"]
                  {| Bank.dcls_month := "202401"; Bank.fin_co_no := "0010002";
                     Bank.kor_co_nm := "B"; Bank.dcls_chrg_man := "";
                     Bank.homp_url := ""; Bank.cal_tel := "";
                     Bank.options := PlainObject.Undefined |}
                  ltac:(vm_compute; apply list_elem_of_further,
                                      list_elem_of_here))).
  reflexivity.
Defined.

(* ===================================================================== *)
(** * The hook guards the instance, not one operation *)
(* ===================================================================== *)

Section Hook.

Variable process_env : gmap string string.
#[local] Abbreviation svc := (new_KoreaFssFinlifeService process_env).

(** X13: whatever path and parameters a GET on the client's instance uses, a
    response reaches the caller only if the reply was 2xx and its
    envelope reads the success code; it is then the reply's body with the
    merged configuration of that request. *)
Theorem every_get_on_the_instance_is_validated path ps nw r :
  (Axios.get (api svc) path ps nw).1 = Normal r →
  Js.opt_chain2 (data r) "result" "err_cd" = VStr "000"
  ∧ 200 ≤ status r < 300
  ∧ config r = Axios.mergeConfig (api svc) path ps
  ∧ respond nw (sent nw) (Axios.mergeConfig (api svc) path ps)
    = Replied (status r) (data r).
Proof.
  change ((Axios.get (api svc) path ps nw).1)
    with (Axios.settle (Axios.mergeConfig (api svc) path ps)
            (respond nw (sent nw) (Axios.mergeConfig (api svc) path ps))
          ≫= response_interceptor).
  destruct (respond nw (sent nw) (Axios.mergeConfig (api svc) path ps))
    as [st body|reason] eqn:Hr; [|done].
  destruct (decide (200 ≤ st < 300)) as [Hst|Hst];
    [rewrite (settle_2xx _ _ _ Hst)
    |unfold Axios.settle; by rewrite bool_decide_eq_false_2].
  set (response := {| data := body; status := st;
                      config := Axios.mergeConfig (api svc) path ps |}).
  change (Normal response ≫= response_interceptor)
    with (response_interceptor response).
  destruct (interceptor_cases response)
    as [[_ He] | [(x & _ & _ & He) | [(x & Hres & Hcode & He)
                                     | (x & c & m & _ & _ & _ & _ & He)]]];
    rewrite He; simpl; try done.
  intros [= <-]. simpl. split; [|done].
  by apply (opt_chain2_get _ _ _ x).
Qed.

End Hook.

Lemma every_get_on_the_instance_is_validated_witness :
  let r := {| data := Sample.success; status := 204;
              config := Axios.mergeConfig
                          (api (new_KoreaFssFinlifeService Sample.process_env))
                          "/depositProductsSearch.json"
                          {[ "topFinGrpNo" := VStr "020000" ]} |} in
  Js.opt_chain2 (data r) "result" "err_cd" = VStr "000"
  ∧ 200 ≤ status r < 300
  ∧ config r = Axios.mergeConfig
                 (api (new_KoreaFssFinlifeService Sample.process_env))
                 "/depositProductsSearch.json"
                 {[ "topFinGrpNo" := VStr "020000" ]}
  ∧ respond (Sample.answering 204 Sample.success)
      (sent (Sample.answering 204 Sample.success))
      (Axios.mergeConfig
         (api (new_KoreaFssFinlifeService Sample.process_env))
         "/depositProductsSearch.json"
         {[ "topFinGrpNo" := VStr "020000" ]})
    = Replied (status r) (data r).
Proof.
  apply (every_get_on_the_instance_is_validated Sample.process_env
           "/depositProductsSearch.json" {[ "topFinGrpNo" := VStr "020000" ]}
           (Sample.answering 204 Sample.success)).
  reflexivity.
Defined.
